(** * Foodgram: the HTTP API views (backend/foodgram/api/views.py)

    A shallow embedding of the view classes of the recipe-sharing
    backend.  The views are thin handlers over the Django ORM and the
    REST framework; the database is an explicit record of tables, a
    handler is a function in a state-and-exception monad over that
    record, and the pieces of the project that live in other modules
    (serializers, permission classes, model constraints) are interfaces
    the development is parametric in. *)

From Stdlib Require Import Ascii String ZArith.
From stdpp Require Import base option list gmap strings sorting pretty.

Set Warnings "-register-all".
Open Scope Z_scope.

(** ** Python values

    JSON-like values: request payloads, URL keyword arguments and
    serializer output. *)

Inductive value :=
| VNone
| VBool (b : bool)
| VInt (z : Z)
| VStr (s : string)
| VList (l : list value)
| VDict (d : gmap string value).

Abbreviation dict := (gmap string value).

(** Python truth value, as [if kwargs['partial']:] tests it. *)
Definition truthy (v : value) : bool :=
  match v with
  | VNone => false
  | VBool b => b
  | VInt z => negb (z =? 0)
  | VStr s => match s with EmptyString => false | _ => true end
  | VList l => match l with [] => false | _ => true end
  | VDict d => match map_to_list d with [] => false | _ => true end
  end.

Definition LF : string := String "010"%char EmptyString.
Definition DQUOTE : string := String "034"%char EmptyString.

(** ** Exceptions

    The first five are turned into responses by the REST framework's
    exception handler; the others are ordinary Python or ORM exceptions
    that no handler catches, so the request ends as a server error. *)

Inductive Exn :=
| Http404
| ValidationError (detail : dict)
| NotAuthenticated
| PermissionDenied
| MethodNotAllowed
| KeyError (key : string)
| ValueError
| TypeError
| AttributeError
| AssertionError
| NotImplementedError
| MultipleObjectsReturned
| IntegrityError.

(** ** The data model (recipes.models, users.models)

    A table is a finite map from primary key to row.  Foreign keys are
    the primary key of the row they point to. *)

Record User := {
  u_password : string;          (* the stored, encoded credential *)
  u_profile : dict;             (* every other column *)
}.

Record Recipe := {
  r_author : Z;
  r_fields : dict;
}.

Record Ingredient := {
  i_name : string;
  i_measurement_unit : string;
}.

(** The amount is a whole number, as the shopping list prints it. *)
Record IngredientAmount := {
  ia_recipe : Z;
  ia_ingredient : Z;
  ia_amount : Z;
}.

(** Favorite (user, recipe), ShoppingCart (user, recipe) and
    Subscription (user, author) have the same shape: the user who owns
    the row and the row's target. *)
Inductive JoinModel := Favorite | ShoppingCart | Subscription.

#[global] Instance JoinModel_eq_dec : EqDecision JoinModel.
Proof. solve_decision. Defined.

Record JoinRow := {
  jr_user : Z;
  jr_target : Z;
}.

Record DB := {
  users : gmap Z User;
  recipes : gmap Z Recipe;
  ingredients : gmap Z Ingredient;
  ingredient_amounts : gmap Z IngredientAmount;
  favorites : gmap Z JoinRow;
  shopping_carts : gmap Z JoinRow;
  subscriptions : gmap Z JoinRow;
}.

Definition objects (k : JoinModel) (db : DB) : gmap Z JoinRow :=
  match k with
  | Favorite => favorites db
  | ShoppingCart => shopping_carts db
  | Subscription => subscriptions db
  end.

Definition set_objects (k : JoinModel) (t : gmap Z JoinRow) (db : DB) : DB :=
  match k with
  | Favorite =>
      {| users := users db; recipes := recipes db; ingredients := ingredients db;
         ingredient_amounts := ingredient_amounts db; favorites := t;
         shopping_carts := shopping_carts db; subscriptions := subscriptions db |}
  | ShoppingCart =>
      {| users := users db; recipes := recipes db; ingredients := ingredients db;
         ingredient_amounts := ingredient_amounts db; favorites := favorites db;
         shopping_carts := t; subscriptions := subscriptions db |}
  | Subscription =>
      {| users := users db; recipes := recipes db; ingredients := ingredients db;
         ingredient_amounts := ingredient_amounts db; favorites := favorites db;
         shopping_carts := shopping_carts db; subscriptions := t |}
  end.

Definition set_users (t : gmap Z User) (db : DB) : DB :=
  {| users := t; recipes := recipes db; ingredients := ingredients db;
     ingredient_amounts := ingredient_amounts db; favorites := favorites db;
     shopping_carts := shopping_carts db; subscriptions := subscriptions db |}.

(** The table a join model's target column points into: recipes for
    Favorite and ShoppingCart, users for Subscription. *)
Definition target_exists (k : JoinModel) (db : DB) (t : Z) : bool :=
  match k with
  | Favorite | ShoppingCart => bool_decide (is_Some (recipes db !! t))
  | Subscription => bool_decide (is_Some (users db !! t))
  end.

(** ** The request monad: database state and exceptions *)

Definition M (A : Type) : Type := DB → (Exn + A) * DB.

Definition ret {A} (x : A) : M A := λ db, (inr x, db).
Definition raise {A} (e : Exn) : M A := λ db, (inl e, db).
Definition bind {A B} (m : M A) (f : A → M B) : M B :=
  λ db, match m db with
        | (inl e, db') => (inl e, db')
        | (inr x, db') => f x db'
        end.
Definition get_db : M DB := λ db, (inr db, db).
Definition modify_db (f : DB → DB) : M unit := λ db, (inr tt, f db).

Declare Scope view_scope.
Delimit Scope view_scope with view.
Notation "x <- m ;; k" := (bind m (λ x, k))
  (at level 100, m at next level, right associativity) : view_scope.
Notation "m ;;; k" := (bind m (λ _, k))
  (at level 100, right associativity) : view_scope.
Open Scope view_scope.

(** ** Requests and responses *)

Inductive Method := GET | POST | PUT | PATCH | DELETE | HEAD | OPTIONS | TRACE.

#[global] Instance Method_eq_dec : EqDecision Method.
Proof. solve_decision. Defined.

Definition method_lower (m : Method) : string :=
  match m with
  | GET => "get" | POST => "post" | PUT => "put" | PATCH => "patch"
  | DELETE => "delete" | HEAD => "head" | OPTIONS => "options" | TRACE => "trace"
  end.

Definition SAFE_METHODS : list Method := [GET; HEAD; OPTIONS].

(** [request.method in SAFE_METHODS] *)
Definition is_safe (m : Method) : bool := bool_decide (m ∈ SAFE_METHODS).

(** [request.user]: the anonymous user, or a row of the users table as
    authentication loaded it. *)
Inductive RequestUser :=
| AnonymousUser
| AuthUser (pk : Z) (u : User).

(** [request.data], the parsed payload: its items and whether it
    refuses item assignment.  A JSON payload is parsed into a plain
    dictionary; a form-encoded one into a QueryDict, which is immutable
    ([d[key] = v] raises AttributeError). *)
Record Payload := {
  items : dict;
  immutable : bool;
}.

Coercion items : Payload >-> gmap.

Definition json (d : dict) : Payload := {| items := d; immutable := false |}.

Definition form (d : dict) : Payload := {| items := d; immutable := true |}.

(** The payload with one more item, of the same kind. *)
#[global] Instance Payload_insert : Insert string value Payload := λ key v d,
  {| items := <[ key := v ]> (items d); immutable := immutable d |}.
#[global] Instance Payload_empty : Empty Payload := json ∅.

Record Request := {
  method : Method;
  user : RequestUser;
  data : Payload;
}.

Definition is_authenticated (request : Request) : bool :=
  match user request with AnonymousUser => false | AuthUser _ _ => true end.

(** [request.user.id] *)
Definition user_id (request : Request) : value :=
  match user request with AnonymousUser => VNone | AuthUser pk _ => VInt pk end.

Abbreviation Kwargs := (gmap string value).

(** The view instance a request is dispatched on: [self.request],
    [self.kwargs] (the URL keyword arguments) and [self.action]. *)
Record View := {
  request : Request;
  kwargs : Kwargs;
  action : option string;
}.

Inductive Body :=
| NoBody
| Text (s : string)
| Data (d : dict)
| Detail (e : Exn).

Record Response := {
  status_code : Z;
  content : Body;
  headers : gmap string string;
}.

Definition HTTP_200_OK : Z := 200.
Definition HTTP_201_CREATED : Z := 201.
Definition HTTP_204_NO_CONTENT : Z := 204.
Definition HTTP_400_BAD_REQUEST : Z := 400.
Definition HTTP_401_UNAUTHORIZED : Z := 401.
Definition HTTP_403_FORBIDDEN : Z := 403.
Definition HTTP_404_NOT_FOUND : Z := 404.
Definition HTTP_405_METHOD_NOT_ALLOWED : Z := 405.
Definition HTTP_500_INTERNAL_SERVER_ERROR : Z := 500.

(** A handler method: [self], the call's keyword arguments. *)
Abbreviation Handler := (View → Kwargs → M Response).

(** [d[key]] *)
Definition getitem (d : dict) (key : string) : M value :=
  match d !! key with
  | Some v => ret v
  | None => raise (KeyError key)
  end.

(** A URL keyword argument used as a primary key in an ORM lookup. *)
Definition as_pk (v : value) : M Z :=
  match v with
  | VInt z => ret z
  | _ => raise ValueError
  end.

(** ** What the views import from the rest of the project

    views.py names these but does not define them.  Each is an
    interface here; the views are embedded over any implementation. *)

(** An object handed to [has_object_permission]. *)
Inductive Obj :=
| RecipeObj (pk : Z) (r : Recipe)
| UserObj (pk : Z) (u : User).

(** A permission class (rest_framework.permissions.BasePermission). *)
Record Permission := {
  has_permission : Request → option string → bool;
  has_object_permission : Request → Obj → bool;
}.

(** api/permissions.py *)
Class Permissions := {
  AuthorOrReadOnly : Permission;
  AuthorRegistrationOrReadOnly : Permission;
}.

(** A model serializer: validation of a payload (against the instance
    being updated, if any, and the [partial] flag) into errors or
    validated data, the two ways [save()] persists, and the output
    representation. *)
Record ModelSerializer (Row : Type) := {
  run_validation : Request → DB → option (Z * Row) → bool → dict → dict + dict;
  create : dict → M (Z * Row);
  update : Z * Row → dict → M (Z * Row);
  to_representation : Request → DB → Z * Row → dict;
  (* [Serializer(instance).data], the serializer built with no context:
     there is no request to read, and a field that asks the context
     for one raises *)
  data_without_context : DB → Z * Row → Exn + dict;
}.
Arguments run_validation {Row}.
Arguments create {Row}.
Arguments update {Row}.
Arguments to_representation {Row}.
Arguments data_without_context {Row}.

(** The [author] column of a recipe is a writable field of the
    serializer: a recipe created from a payload that names an author is
    stored with that author. *)
Definition author_is_written (S : ModelSerializer Recipe) : Prop :=
  ∀ request db d validated obj db' a,
    run_validation S request db None false d = inr validated →
    create S validated db = (inr obj, db') →
    d !! "author"%string = Some (VInt a) →
    r_author obj.2 = a ∧ recipes db' !! obj.1 = Some obj.2.

(** The serializer of a join model.  The views always pass both columns
    to [save()] themselves, so what the serializer contributes is the
    validation of the payload and the representation of the new row. *)
Record JoinSerializer := {
  js_run_validation : View → DB → dict → dict + dict;
  js_to_representation : View → DB → Z * JoinRow → dict;
}.

(** The two fields of PasswordSerializer. *)
Record PasswordData := {
  current_password : string;
  new_password : string;
}.

(** api/serializers.py *)
Class Serializers := {
  FavoriteSerializer : JoinSerializer;
  ShoppingCartSerializer : JoinSerializer;
  SubscribeSerializer : JoinSerializer;
  RecipeInteractSerializer : ModelSerializer Recipe;
  RecipeReadSerializer : ModelSerializer Recipe;
  UserSerializer : ModelSerializer User;
  PasswordSerializer : dict → dict + PasswordData;
}.

(** recipes/models.py and users/models.py beyond the columns: whether a
    join model declares its (user, target) pair unique, and what
    deleting a recipe does to the database (the row and whatever
    cascades from it). *)
Class Models := {
  unique_together : JoinModel → bool;
  Recipe_delete : Z → DB → DB;
}.

(** The platform under the project: the database's collation of
    ingredient names, Django's password hasher, Python's [str] on
    serializer output, and the REST framework methods the view classes
    inherit and that need settings this file does not fix (pagination,
    filter backends, metadata). *)
Class Platform := {
  name_le : relation string;
  name_le_dec :: RelDecision name_le;
  name_le_trans :: Transitive name_le;
  name_le_total :: Total name_le;
  make_password : string → string;
  check_password : string → string → bool;
  str : value → string;
  ListModelMixin_list : string → Handler;
  RetrieveModelMixin_retrieve : string → Handler;
  UserViewSet_create : Handler;
  UserViewSet_destroy : Handler;
  APIView_options : Handler;
}.

(** ** The REST framework, as far as the views rely on it *)

(** rest_framework.permissions.IsAuthenticated *)
Definition IsAuthenticated : Permission :=
  {| has_permission := λ request _, is_authenticated request;
     has_object_permission := λ _ _, true |}.

(** APIView.permission_denied *)
Definition permission_denied {A} (request : Request) : M A :=
  if is_authenticated request then raise PermissionDenied
  else raise NotAuthenticated.

(** APIView.check_permissions *)
Fixpoint check_permissions (ps : list Permission) (self : View) : M unit :=
  match ps with
  | [] => ret tt
  | p :: ps =>
      if has_permission p (request self) (action self)
      then check_permissions ps self
      else permission_denied (request self)
  end.

(** APIView.check_object_permissions *)
Fixpoint check_object_permissions (ps : list Permission) (self : View) (obj : Obj)
  : M unit :=
  match ps with
  | [] => ret tt
  | p :: ps =>
      if has_object_permission p (request self) obj
      then check_object_permissions ps self obj
      else permission_denied (request self)
  end.

(** django.shortcuts.get_object_or_404 on a filtered table:
    [QuerySet.get] wants exactly one row. *)
Definition get_object_or_404 {Row} (table : gmap Z Row) (P : Z * Row → Prop)
    `{!∀ x, Decision (P x)} : M (Z * Row) :=
  match filter P (map_to_list table) with
  | [] => raise Http404
  | [obj] => ret obj
  | _ => raise MultipleObjectsReturned
  end.

(** The same with the primary key as the filter: at most one row. *)
Definition get_by_pk_or_404 {Row} (table : gmap Z Row) (pk : Z) : M (Z * Row) :=
  match table !! pk with
  | Some row => ret (pk, row)
  | None => raise Http404
  end.

(** GenericAPIView.get_object, for a request without query parameters
    (filter backends then leave the queryset as it is). *)
Definition get_object {Row} (table : DB → gmap Z Row) (as_obj : Z → Row → Obj)
    (ps : list Permission) (self : View) : M (Z * Row) :=
  match kwargs self !! "pk"%string with
  | None => raise AssertionError
  | Some (VInt pk) =>
      db <- get_db;;
      obj <- get_by_pk_or_404 (table db) pk;;
      check_object_permissions ps self (as_obj obj.1 obj.2);;;
      ret obj
  | Some _ => raise Http404
  end.

(** [Response(data, status=..., headers=...)] *)
Definition Response_ (d : Body) (status : Z) (hs : gmap string string) : Response :=
  {| status_code := status; content := d; headers := hs |}.

(** CreateModelMixin.get_success_headers *)
Definition get_success_headers `{!Platform} (d : dict) : gmap string string :=
  match d !! "url"%string with
  | Some v => {[ "Location"%string := str v ]}
  | None => ∅
  end.

(** [serializer.is_valid(raise_exception=True)] *)
Definition is_valid_or_raise (r : dict + dict) : M dict :=
  match r with
  | inl errors => raise (ValidationError errors)
  | inr validated => ret validated
  end.

(** UpdateModelMixin.update *)
Definition UpdateModelMixin_update {Row} (table : DB → gmap Z Row)
    (as_obj : Z → Row → Obj) (ps : list Permission) (S : ModelSerializer Row)
    : Handler := λ self kw,
  let partial := truthy (default (VBool false) (kw !! "partial"%string)) in
  instance <- get_object table as_obj ps self;;
  db <- get_db;;
  validated <- is_valid_or_raise
    (run_validation S (request self) db (Some instance) partial (data (request self)));;
  instance' <- update S instance validated;;
  db' <- get_db;;
  ret (Response_ (Data (to_representation S (request self) db' instance'))
         HTTP_200_OK ∅).

(** UpdateModelMixin.partial_update: [kwargs['partial'] = True], then
    [self.update], whichever class defines it. *)
Definition UpdateModelMixin_partial_update (self_update : Handler) : Handler :=
  λ self kw, self_update self (<[ "partial"%string := VBool true ]> kw).

(** The exception handler of the REST framework, with Django's answer
    to an exception nobody caught.  An unauthenticated request is
    answered 401, as the project's error taxonomy has it. *)
Definition handle_exception (e : Exn) : Response :=
  match e with
  | Http404 => Response_ (Detail e) HTTP_404_NOT_FOUND ∅
  | ValidationError errors => Response_ (Data errors) HTTP_400_BAD_REQUEST ∅
  | NotAuthenticated => Response_ (Detail e) HTTP_401_UNAUTHORIZED ∅
  | PermissionDenied => Response_ (Detail e) HTTP_403_FORBIDDEN ∅
  | MethodNotAllowed => Response_ (Detail e) HTTP_405_METHOD_NOT_ALLOWED ∅
  | _ => Response_ (Detail e) HTTP_500_INTERNAL_SERVER_ERROR ∅
  end.

(** A view class: the attributes dispatch reads, and its methods by
    name. *)
Record ViewSet := {
  http_method_names : list string;
  permission_classes : list Permission;
  getattr : string → option Handler;
}.

(** View.http_method_names as Django sets it when a class does not. *)
Definition default_http_method_names : list string :=
  ["get"; "post"; "put"; "patch"; "delete"; "head"; "options"; "trace"]%string.

(** A URL route of a view set: which action each method is bound to,
    and the permission classes an [@action] decorator puts in place of
    the class's own. *)
Record Route := {
  actions : list (Method * string);
  route_permission_classes : option (list Permission);
}.

(** ViewSetMixin.as_view binds HEAD to what GET is bound to. *)
Definition action_map (route : Route) (m : Method) : option string :=
  match list_find (λ p, p.1 = m) (actions route) with
  | Some (_, (_, a)) => Some a
  | None =>
      match m with
      | HEAD =>
          match list_find (λ p, p.1 = GET) (actions route) with
          | Some (_, (_, a)) => Some a
          | None => None
          end
      | _ => None
      end
  end.

(** [self.action], as ViewSetMixin.initialize_request sets it. *)
Definition view_action (route : Route) (m : Method) : option string :=
  match m with
  | OPTIONS => Some "metadata"%string
  | _ => action_map route m
  end.

(** The handler APIView.dispatch picks for a method: none stands for
    [http_method_not_allowed]. *)
Definition select_handler `{!Platform} (V : ViewSet) (route : Route) (m : Method)
  : option Handler :=
  if bool_decide (method_lower m ∈ http_method_names V) then
    match action_map route m with
    | Some a => getattr V a
    | None =>
        match m with
        | OPTIONS => Some APIView_options
        | _ => None
        end
    end
  else None.

Definition get_permissions (V : ViewSet) (route : Route) : list Permission :=
  default (permission_classes V) (route_permission_classes route).

(** APIView.dispatch: permissions first, then the handler; every
    exception becomes a response. *)
Definition dispatch `{!Platform} (V : ViewSet) (route : Route)
    (req : Request) (url_kwargs : Kwargs) (db : DB) : Response * DB :=
  let self := {| request := req; kwargs := url_kwargs;
                 action := view_action route (method req) |} in
  let run :=
    check_permissions (get_permissions V route) self;;;
    match select_handler V route (method req) with
    | Some handler => handler self url_kwargs
    | None => raise MethodNotAllowed
    end in
  match run db with
  | (inl e, db') => (handle_exception e, db')
  | (inr response, db') => (response, db')
  end.

(** URL routes.  urls.py registers the view sets with the REST
    framework's router, which binds the methods of a collection URL and
    of an item URL as below and adds one route per [@action]; the three
    join views answer POST and DELETE on their URL. *)
Definition list_route : Route :=
  {| actions := [(GET, "list"); (POST, "create")]%string;
     route_permission_classes := None |}.

Definition detail_route : Route :=
  {| actions := [(GET, "retrieve"); (PUT, "update");
                 (PATCH, "partial_update"); (DELETE, "destroy")]%string;
     route_permission_classes := None |}.

Definition action_route (methods : list Method) (name : string)
    (ps : list Permission) : Route :=
  {| actions := map (λ m, (m, name)) methods;
     route_permission_classes := Some ps |}.

Definition create_destroy_route : Route :=
  {| actions := [(POST, "create"); (DELETE, "destroy")]%string;
     route_permission_classes := None |}.

(** ** views.py *)

Section views.
Context `{!Permissions, !Serializers, !Models, !Platform}.

(** *** FavoriteAPIView, ShoppingCartAPIView, SubscribeAPIView

    The three classes have the same two methods up to the model, the
    serializer and the name of the URL keyword argument. *)

Definition serializer_class (k : JoinModel) : JoinSerializer :=
  match k with
  | Favorite => FavoriteSerializer
  | ShoppingCart => ShoppingCartSerializer
  | Subscription => SubscribeSerializer
  end.

(** ['recipe_id'] in the first two classes, ['user_id'] in the third. *)
Definition lookup_kwarg (k : JoinModel) : string :=
  match k with
  | Favorite | ShoppingCart => "recipe_id"
  | Subscription => "user_id"
  end.

(** [get_object_or_404(Recipe, id=...)], [get_object_or_404(User, id=...)] *)
Definition get_target_or_404 (k : JoinModel) (id : Z) : M Z :=
  db <- get_db;;
  match k with
  | Favorite | ShoppingCart => obj <- get_by_pk_or_404 (recipes db) id;; ret obj.1
  | Subscription => obj <- get_by_pk_or_404 (users db) id;; ret obj.1
  end.

(** [serializer.save(user=..., recipe=...)]: the model's
    [objects.create] with the two columns, under a fresh primary key;
    the database refuses a second row for a pair declared unique. *)
Definition Model_create (k : JoinModel) (row : JoinRow) : M (Z * JoinRow) :=
  db <- get_db;;
  if unique_together k &&
     bool_decide (Exists (λ obj, jr_user obj.2 = jr_user row ∧
                                 jr_target obj.2 = jr_target row)
                    (map_to_list (objects k db)))
  then raise IntegrityError
  else
    let pk := fresh (dom (objects k db)) in
    modify_db (set_objects k (<[ pk := row ]> (objects k db)));;;
    ret (pk, row).

Definition perform_create (k : JoinModel) (self : View) : M (Z * JoinRow) :=
  v <- getitem (kwargs self) (lookup_kwarg k);;
  id <- as_pk v;;
  target <- get_target_or_404 k id;;
  match user (request self) with
  | AuthUser upk _ => Model_create k {| jr_user := upk; jr_target := target |}
  | AnonymousUser => raise ValueError
  end.

(** CreateModelMixin.create, which calls [perform_create] once the
    payload has passed the serializer's validation. *)
Definition CreateModelMixin_create (k : JoinModel) : Handler := λ self kw,
  db <- get_db;;
  _ <- is_valid_or_raise
         (js_run_validation (serializer_class k) self db (data (request self)));;
  instance <- perform_create k self;;
  db' <- get_db;;
  let d := js_to_representation (serializer_class k) self db' instance in
  ret (Response_ (Data d) HTTP_201_CREATED (get_success_headers d)).

(** DestroyModelMixin.perform_destroy: [instance.delete()] *)
Definition perform_destroy (k : JoinModel) (instance : Z * JoinRow) : M unit :=
  modify_db (λ db, set_objects k (delete instance.1 (objects k db)) db).

Definition destroy (k : JoinModel) : Handler := λ self kw,
  v <- getitem (kwargs self) (lookup_kwarg k);;
  id <- as_pk v;;
  match user (request self) with
  | AnonymousUser => raise TypeError
  | AuthUser upk _ =>
      db <- get_db;;
      instance <- get_object_or_404 (objects k db)
                    (λ obj, jr_target obj.2 = id ∧ jr_user obj.2 = upk);;
      perform_destroy k instance;;;
      ret (Response_ NoBody HTTP_204_NO_CONTENT ∅)
  end.

Definition CreateDestroyAPIView (k : JoinModel) (ps : list Permission) : ViewSet :=
  {| http_method_names := default_http_method_names;
     permission_classes := ps;
     getattr := λ a,
       if decide (a = "create"%string) then Some (CreateModelMixin_create k)
       else if decide (a = "destroy"%string) then Some (destroy k)
       else None |}.

Definition FavoriteAPIView : ViewSet :=
  CreateDestroyAPIView Favorite [IsAuthenticated].

Definition ShoppingCartAPIView : ViewSet :=
  CreateDestroyAPIView ShoppingCart [IsAuthenticated].

Definition SubscribeAPIView : ViewSet :=
  CreateDestroyAPIView Subscription [AuthorOrReadOnly].

(** The view class of a join model. *)
Definition join_view (k : JoinModel) : ViewSet :=
  match k with
  | Favorite => FavoriteAPIView
  | ShoppingCart => ShoppingCartAPIView
  | Subscription => SubscribeAPIView
  end.

(** *** RecipeViewSet *)

Definition RecipeViewSet_get_serializer_class (self : View) : ModelSerializer Recipe :=
  if decide (action self = Some "list"%string ∨ action self = Some "retrieve"%string)
  then RecipeReadSerializer
  else RecipeInteractSerializer.

(** [request.data['author'] = request.user.id] changes the request
    object itself, which is also [self.request]: everything after it,
    the serializers' context included, sees the new payload.  An
    immutable payload refuses the assignment. *)
Definition set_author (self : View) : M View :=
  if immutable (data (request self)) then raise AttributeError
  else
    ret {| request := {| method := method (request self);
                         user := user (request self);
                         data := <[ "author"%string := user_id (request self) ]>
                                   (data (request self)) |};
           kwargs := kwargs self;
           action := action self |}.

Definition RecipeViewSet_create : Handler := λ self kw,
  self <- set_author self;;
  let serializer := RecipeViewSet_get_serializer_class self in
  db <- get_db;;
  validated <- is_valid_or_raise
    (run_validation serializer (request self) db None false (data (request self)));;
  instance <- create serializer validated;;
  db' <- get_db;;
  let show := to_representation RecipeReadSerializer (request self) db' instance in
  ret (Response_ (Data show) HTTP_201_CREATED (get_success_headers show)).

(** One row of the shopping-list query: the keys [ingredient__name],
    [ingredient__measurement_unit] and, after [annotate], the sum
    [ingredient_amount]. *)
Record Line := {
  ingredient__name : string;
  ingredient__measurement_unit : string;
  ingredient_amount : Z;
}.

(** [IngredientAmount.objects.filter(recipe__shopcart__user=user)
    .values('ingredient__name', 'ingredient__measurement_unit')]: one
    row per pair of an ingredient amount and a cart entry of the user
    on the same recipe, with the ingredient's two columns joined in and
    the amount still unsummed.  (Foreign keys are taken to point at
    existing rows, so the recipe table itself adds nothing to the
    join.) *)
Definition filter_values (db : DB) (upk : Z) : list Line :=
  ia ← (map_to_list (ingredient_amounts db)).*2;
  sc ← (map_to_list (shopping_carts db)).*2;
  if decide (jr_target sc = ia_recipe ia ∧ jr_user sc = upk) then
    match ingredients db !! ia_ingredient ia with
    | Some i => [ {| ingredient__name := i_name i;
                     ingredient__measurement_unit := i_measurement_unit i;
                     ingredient_amount := ia_amount ia |} ]
    | None => []
    end
  else [].

(** The two columns a group is made on. *)
Definition group_key (g : Line) : string * string :=
  (ingredient__name g, ingredient__measurement_unit g).

Definition same_group (r g : Line) : Prop :=
  ingredient__name r = ingredient__name g ∧
  ingredient__measurement_unit r = ingredient__measurement_unit g.

#[global] Instance same_group_dec r g : Decision (same_group r g).
Proof. unfold same_group. apply _. Defined.

(** [.annotate(ingredient_amount=Sum('amount'))] after [values]:
    GROUP BY the two value columns, each row added to its group's
    sum. *)
Fixpoint add_to_groups (r : Line) (groups : list Line) : list Line :=
  match groups with
  | [] => [r]
  | g :: groups =>
      if decide (same_group r g)
      then {| ingredient__name := ingredient__name g;
              ingredient__measurement_unit := ingredient__measurement_unit g;
              ingredient_amount := ingredient_amount g + ingredient_amount r |}
           :: groups
      else g :: add_to_groups r groups
  end.

Definition annotate_sum (rows : list Line) : list Line :=
  foldr add_to_groups [] rows.

(** [.order_by('ingredient__name')], in the database's collation. *)
Definition by_name (g1 g2 : Line) : Prop :=
  name_le (ingredient__name g1) (ingredient__name g2).

#[global] Instance by_name_dec : RelDecision by_name.
Proof. intros g1 g2. unfold by_name. apply _. Defined.

Definition order_by_name (groups : list Line) : list Line :=
  merge_sort by_name groups.

(** The whole queryset of [download_shopping_cart]. *)
Definition shopping_list (db : DB) (upk : Z) : list Line :=
  order_by_name (annotate_sum (filter_values db upk)).

(** SQL's SUM over the rows of one group. *)
Definition sum_amounts (rows : list Line) : Z :=
  foldr (λ r s, ingredient_amount r + s) 0 rows.

(** [f'{name}: {amount} {m_unit}\n'] *)
Definition format_line (ingr : Line) : string :=
  (ingredient__name ingr ++ ": " ++ pretty (ingredient_amount ingr) ++ " "
   ++ ingredient__measurement_unit ingr ++ LF)%string.

Definition empty_cart_text : string := "В вашей корзине пусто".
Definition header_line : string := ("Список покупок:" ++ LF)%string.

(** [HttpResponse(text, status=..., content_type=...)] followed by
    [response['Content-Disposition'] = ...] *)
Definition HttpResponse (text : string) (status : Z) (content_type disposition : string)
  : Response :=
  {| status_code := status;
     content := Text text;
     headers := <[ "Content-Disposition"%string := disposition ]>
                  {[ "Content-Type"%string := content_type ]} |}.

(** The [print(ingredients)] of the source writes to the server's
    standard output only and is left out. *)
Definition RecipeViewSet_download_shopping_cart : Handler := λ self kw,
  match user (request self) with
  | AnonymousUser => raise TypeError
  | AuthUser upk _ =>
      db <- get_db;;
      let ingredients := shopping_list db upk in
      let text :=
        if decide (length ingredients = 0%nat) then empty_cart_text
        else String.concat EmptyString (header_line :: map format_line ingredients) in
      let filename := "shopping_list.txt"%string in
      ret (HttpResponse text HTTP_200_OK "text/plain"
             ("attachment; filename=" ++ DQUOTE ++ filename ++ DQUOTE))
  end.

(** DestroyModelMixin.destroy, inherited as it is. *)
Definition RecipeViewSet_destroy : Handler := λ self kw,
  instance <- get_object recipes RecipeObj [AuthorOrReadOnly] self;;
  modify_db (Recipe_delete instance.1);;;
  ret (Response_ NoBody HTTP_204_NO_CONTENT ∅).

Definition RecipeViewSet_update : Handler := λ self kw,
  UpdateModelMixin_update recipes RecipeObj [AuthorOrReadOnly]
    (RecipeViewSet_get_serializer_class self) self kw.

Definition RecipeViewSet : ViewSet :=
  {| http_method_names := ["get"; "post"; "patch"; "delete"]%string;
     permission_classes := [AuthorOrReadOnly];
     getattr := λ a,
       if decide (a = "list"%string) then Some (ListModelMixin_list "RecipeViewSet")
       else if decide (a = "create"%string) then Some RecipeViewSet_create
       else if decide (a = "retrieve"%string)
         then Some (RetrieveModelMixin_retrieve "RecipeViewSet")
       else if decide (a = "update"%string) then Some RecipeViewSet_update
       else if decide (a = "partial_update"%string)
         then Some (UpdateModelMixin_partial_update RecipeViewSet_update)
       else if decide (a = "destroy"%string) then Some RecipeViewSet_destroy
       else if decide (a = "download_shopping_cart"%string)
         then Some RecipeViewSet_download_shopping_cart
       else None |}.

Definition download_shopping_cart_route : Route :=
  action_route [GET] "download_shopping_cart" [IsAuthenticated].

(** *** UserViewSet *)

(** [super().update(...)]: UpdateModelMixin.update on the users. *)
Definition super_update : Handler :=
  UpdateModelMixin_update users UserObj [AuthorRegistrationOrReadOnly] UserSerializer.

Definition UserViewSet_update : Handler := λ self kw,
  partial <- getitem kw "partial";;
  if truthy partial then super_update self kw
  else ret (Response_ NoBody HTTP_403_FORBIDDEN ∅).

(** [UserSerializer(user)] is built without a context. *)
Definition UserViewSet_me : Handler := λ self kw,
  match user (request self) with
  | AnonymousUser => raise AttributeError
  | AuthUser pk u =>
      db <- get_db;;
      match data_without_context UserSerializer db (pk, u) with
      | inr d => ret (Response_ (Data d) HTTP_200_OK ∅)
      | inl e => raise e
      end
  end.

(** [user.set_password(raw)] *)
Definition set_password (raw : string) (u : User) : User :=
  {| u_password := make_password raw; u_profile := u_profile u |}.

(** [user.save()] *)
Definition save (pk : Z) (u : User) : M unit :=
  modify_db (λ db, set_users (<[ pk := u ]> (users db)) db).

Definition wrong_password : dict :=
  {[ "current_password"%string := VStr "Неверный пароль" ]}.

Definition UserViewSet_set_password : Handler := λ self kw,
  match PasswordSerializer (data (request self)) with
  | inr valid =>
      match user (request self) with
      | AnonymousUser => raise NotImplementedError
      | AuthUser pk u =>
          if negb (check_password (current_password valid) (u_password u))
          then ret (Response_ (Data wrong_password) HTTP_400_BAD_REQUEST ∅)
          else
            save pk (set_password (new_password valid) u);;;
            ret (Response_ NoBody HTTP_204_NO_CONTENT ∅)
      end
  | inl errors => ret (Response_ (Data errors) HTTP_400_BAD_REQUEST ∅)
  end.

Definition UserViewSet : ViewSet :=
  {| http_method_names := default_http_method_names;
     permission_classes := [AuthorRegistrationOrReadOnly];
     getattr := λ a,
       if decide (a = "list"%string) then Some (ListModelMixin_list "UserViewSet")
       else if decide (a = "create"%string) then Some UserViewSet_create
       else if decide (a = "retrieve"%string)
         then Some (RetrieveModelMixin_retrieve "UserViewSet")
       else if decide (a = "update"%string) then Some UserViewSet_update
       else if decide (a = "partial_update"%string)
         then Some (UpdateModelMixin_partial_update UserViewSet_update)
       else if decide (a = "destroy"%string) then Some UserViewSet_destroy
       else if decide (a = "me"%string) then Some UserViewSet_me
       else if decide (a = "set_password"%string) then Some UserViewSet_set_password
       else None |}.

Definition me_route : Route := action_route [GET] "me" [IsAuthenticated].
Definition set_password_route : Route :=
  action_route [POST] "set_password" [IsAuthenticated].

(** *** TagViewSet, IngredientViewSet

    viewsets.ReadOnlyModelViewSet: the class has [list] and [retrieve]
    and no other action.  Neither class names permission classes, so
    the project's default ones apply; they are an argument here. *)
Definition ReadOnlyModelViewSet (name : string) (default_permission_classes : list Permission)
  : ViewSet :=
  {| http_method_names := default_http_method_names;
     permission_classes := default_permission_classes;
     getattr := λ a,
       if decide (a = "list"%string) then Some (ListModelMixin_list name)
       else if decide (a = "retrieve"%string)
         then Some (RetrieveModelMixin_retrieve name)
       else None |}.

Definition TagViewSet (default_permission_classes : list Permission) : ViewSet :=
  ReadOnlyModelViewSet "TagViewSet" default_permission_classes.

Definition IngredientViewSet (default_permission_classes : list Permission) : ViewSet :=
  ReadOnlyModelViewSet "IngredientViewSet" default_permission_classes.

(** *** SubscriptionAPIView *)

(** Modelled from the spec: users/models.py is not among the sources.
    [following] is the reverse relation of Subscription's author
    column, the subscriptions to a user ("lists the users the current
    user follows"; the subscribe view stores the followed user in
    [author] and the follower in [user]). *)
Definition following (db : DB) (author : Z) : list JoinRow :=
  filter (λ s, jr_target s = author) (map_to_list (subscriptions db)).*2.

(** [User.objects.filter(following__user=user)]: one row per user and
    subscription of the request's user to that user. *)
Definition SubscriptionAPIView_get_queryset (self : View) : M (list (Z * User)) :=
  match user (request self) with
  | AnonymousUser => raise TypeError
  | AuthUser upk _ =>
      db <- get_db;;
      ret (u ← map_to_list (users db);
           s ← following db u.1;
           if decide (jr_user s = upk) then [u] else [])
  end.

End views.

(** What a request to the view of join model [k] may change: the table
    of [k] and nothing else. *)
Definition only_changes (k : JoinModel) (db db' : DB) : Prop :=
  users db' = users db ∧ recipes db' = recipes db ∧
  ingredients db' = ingredients db ∧
  ingredient_amounts db' = ingredient_amounts db ∧
  ∀ k', k' ≠ k → objects k' db' = objects k' db.

(** ** Reference implementations of the interfaces

    Used to run the views on concrete requests. *)

(** Modelled from the spec: api/permissions.py is not among the
    sources.  "Update/delete restricted to the recipe's author (or
    read-only for others)": a safe method is open to everyone, any
    other method needs an authenticated user and, on an object, the
    object's author. *)
Definition author_or_read_only : Permission :=
  {| has_permission := λ request _,
       is_safe (method request) || is_authenticated request;
     has_object_permission := λ request obj,
       is_safe (method request) ||
       match obj, user request with
       | RecipeObj _ r, AuthUser pk _ => bool_decide (r_author r = pk)
       | _, _ => false
       end |}.

(** A permission for the user endpoints in the sense of its name:
    reading and registration are open, anything else needs an
    authenticated user and, on an object, that very user. *)
Definition author_registration_or_read_only : Permission :=
  {| has_permission := λ request _,
       is_safe (method request) || bool_decide (method request = POST)
       || is_authenticated request;
     has_object_permission := λ request obj,
       is_safe (method request) ||
       match obj, user request with
       | UserObj opk _, AuthUser pk _ => bool_decide (opk = pk)
       | _, _ => false
       end |}.

Definition spec_permissions : Permissions :=
  {| AuthorOrReadOnly := author_or_read_only;
     AuthorRegistrationOrReadOnly := author_registration_or_read_only |}.

Definition set_recipes (t : gmap Z Recipe) (db : DB) : DB :=
  {| users := users db; recipes := t; ingredients := ingredients db;
     ingredient_amounts := ingredient_amounts db; favorites := favorites db;
     shopping_carts := shopping_carts db; subscriptions := subscriptions db |}.

(** A join serializer that accepts every payload and shows the row. *)
Definition plain_join_serializer : JoinSerializer :=
  {| js_run_validation := λ _ _ d, inr d;
     js_to_representation := λ _ _ obj,
       {[ "id"%string := VInt obj.1 ]} |}.

(** A recipe serializer whose [author] is a required, writable primary
    key field and whose other fields are stored as they come. *)
Definition plain_recipe_serializer : ModelSerializer Recipe :=
  {| run_validation := λ _ _ _ _ d,
       match d !! "author"%string with
       | Some (VInt _) => inr d
       | _ => inl {[ "author"%string := VStr "required" ]}
       end;
     create := λ d,
       match d !! "author"%string with
       | Some (VInt a) =>
           db <- get_db;;
           let pk := fresh (dom (recipes db)) in
           let r := {| r_author := a; r_fields := delete "author"%string d |} in
           modify_db (set_recipes (<[ pk := r ]> (recipes db)));;;
           ret (pk, r)
       | _ => raise TypeError
       end;
     update := λ obj d,
       let r := {| r_author := r_author obj.2;
                   r_fields := delete "author"%string d ∪ r_fields obj.2 |} in
       modify_db (λ db, set_recipes (<[ obj.1 := r ]> (recipes db)) db);;;
       ret (obj.1, r);
     to_representation := λ _ _ obj,
       <[ "id"%string := VInt obj.1 ]>
         (<[ "author"%string := VInt (r_author obj.2) ]> (r_fields obj.2));
     data_without_context := λ _ obj,
       inr (<[ "id"%string := VInt obj.1 ]>
              (<[ "author"%string := VInt (r_author obj.2) ]> (r_fields obj.2))) |}.

(** The same output with a marker, to tell the read representation
    from the write representation. *)
Definition nested_recipe_serializer : ModelSerializer Recipe :=
  {| run_validation := run_validation plain_recipe_serializer;
     create := create plain_recipe_serializer;
     update := update plain_recipe_serializer;
     to_representation := λ request db obj,
       <[ "is_favorited"%string := VBool false ]>
         (to_representation plain_recipe_serializer request db obj);
     data_without_context := λ _ _, inl (KeyError "request") |}.

Definition plain_user_serializer : ModelSerializer User :=
  {| run_validation := λ _ _ _ _ d, inr d;
     create := λ d,
       db <- get_db;;
       let pk := fresh (dom (users db)) in
       let u := {| u_password := EmptyString; u_profile := d |} in
       modify_db (set_users (<[ pk := u ]> (users db)));;;
       ret (pk, u);
     update := λ obj d,
       let u := {| u_password := u_password obj.2; u_profile := d ∪ u_profile obj.2 |} in
       modify_db (λ db, set_users (<[ obj.1 := u ]> (users db)) db);;;
       ret (obj.1, u);
     to_representation := λ _ _ obj,
       <[ "id"%string := VInt obj.1 ]> (u_profile obj.2);
     data_without_context := λ _ obj,
       inr (<[ "id"%string := VInt obj.1 ]> (u_profile obj.2)) |}.

(** Both fields required, both strings. *)
Definition plain_password_serializer (d : dict) : dict + PasswordData :=
  match d !! "current_password"%string, d !! "new_password"%string with
  | Some (VStr c), Some (VStr n) => inr {| current_password := c; new_password := n |}
  | Some (VStr _), _ => inl {[ "new_password"%string := VStr "required" ]}
  | _, _ => inl {[ "current_password"%string := VStr "required" ]}
  end.

Definition plain_serializers : Serializers :=
  {| FavoriteSerializer := plain_join_serializer;
     ShoppingCartSerializer := plain_join_serializer;
     SubscribeSerializer := plain_join_serializer;
     RecipeInteractSerializer := plain_recipe_serializer;
     RecipeReadSerializer := nested_recipe_serializer;
     UserSerializer := plain_user_serializer;
     PasswordSerializer := plain_password_serializer |}.

Definition plain_models : Models :=
  {| unique_together := λ _, true;
     Recipe_delete := λ pk db, set_recipes (delete pk (recipes db)) db |}.

Definition not_modelled : Handler :=
  λ _ _, ret (Response_ NoBody HTTP_200_OK ∅).

(** Names compared byte by byte, passwords stored behind a tag. *)
Definition plain_platform : Platform :=
  {| name_le := String.le;
     make_password := λ raw, ("plain$" ++ raw)%string;
     check_password := λ raw encoded,
       bool_decide (encoded = ("plain$" ++ raw)%string);
     str := λ v, match v with
                 | VStr s => s
                 | VInt z => pretty z
                 | VBool true => "True"
                 | VBool false => "False"
                 | _ => "None"
                 end%string;
     ListModelMixin_list := λ _, not_modelled;
     RetrieveModelMixin_retrieve := λ _, not_modelled;
     UserViewSet_create := not_modelled;
     UserViewSet_destroy := not_modelled;
     APIView_options := not_modelled |}.

(** A join serializer that wants a [note] in the payload, and a recipe
    serializer that wants a [name]. *)
Definition strict_join_serializer : JoinSerializer :=
  {| js_run_validation := λ _ _ d,
       match d !! "note"%string with
       | Some _ => inr d
       | None => inl {[ "note"%string := VStr "required" ]}
       end;
     js_to_representation := js_to_representation plain_join_serializer |}.

Definition strict_recipe_serializer : ModelSerializer Recipe :=
  {| run_validation := λ request db instance partial d,
       match d !! "name"%string with
       | Some _ => run_validation plain_recipe_serializer request db instance partial d
       | None => if partial
                 then run_validation plain_recipe_serializer request db instance partial d
                 else inl {[ "name"%string := VStr "required" ]}
       end;
     create := create plain_recipe_serializer;
     update := update plain_recipe_serializer;
     to_representation := to_representation plain_recipe_serializer;
     data_without_context := data_without_context plain_recipe_serializer |}.

Definition strict_serializers : Serializers :=
  {| FavoriteSerializer := strict_join_serializer;
     ShoppingCartSerializer := strict_join_serializer;
     SubscribeSerializer := strict_join_serializer;
     RecipeInteractSerializer := strict_recipe_serializer;
     RecipeReadSerializer := nested_recipe_serializer;
     UserSerializer := plain_user_serializer;
     PasswordSerializer := plain_password_serializer |}.

Definition empty_db : DB :=
  {| users := ∅; recipes := ∅; ingredients := ∅; ingredient_amounts := ∅;
     favorites := ∅; shopping_carts := ∅; subscriptions := ∅ |}.

(** A small database: two users; recipe 1 by user 1 with 2 eggs and
    200 g of flour, recipe 2 by user 2 with 3 eggs; both recipes in the
    cart of user 1; recipe 2 among the favorites of user 1. *)
Definition alice : User := {| u_password := "plain$secret"; u_profile := ∅ |}.
Definition bob : User := {| u_password := "plain$hunter2"; u_profile := ∅ |}.

Definition sample_db : DB :=
  {| users := {[ 1 := alice; 2 := bob ]};
     recipes := {[ 1 := {| r_author := 1; r_fields := ∅ |};
                   2 := {| r_author := 2; r_fields := ∅ |} ]};
     ingredients := {[ 1 := {| i_name := "eggs"; i_measurement_unit := "pcs" |};
                       2 := {| i_name := "flour"; i_measurement_unit := "g" |} ]};
     ingredient_amounts :=
       {[ 1 := {| ia_recipe := 1; ia_ingredient := 1; ia_amount := 2 |};
          2 := {| ia_recipe := 1; ia_ingredient := 2; ia_amount := 200 |};
          3 := {| ia_recipe := 2; ia_ingredient := 1; ia_amount := 3 |} ]};
     favorites := {[ 1 := {| jr_user := 1; jr_target := 2 |} ]};
     shopping_carts := {[ 1 := {| jr_user := 1; jr_target := 1 |};
                          2 := {| jr_user := 1; jr_target := 2 |} ]};
     subscriptions := ∅ |}.

Definition as_alice (m : Method) (d : dict) : Request :=
  {| method := m; user := AuthUser 1 alice; data := json d |}.

(** The sample database with recipe 2 twice among Alice's favorites, as
    a model without a uniqueness constraint would allow, and with a
    third recipe, without ingredients, as the only entry of Bob's
    cart. *)
Definition crowded_db : DB :=
  {| users := users sample_db;
     recipes := <[ 3 := {| r_author := 2; r_fields := ∅ |} ]> (recipes sample_db);
     ingredients := ingredients sample_db;
     ingredient_amounts := ingredient_amounts sample_db;
     favorites := {[ 1 := {| jr_user := 1; jr_target := 2 |};
                     2 := {| jr_user := 1; jr_target := 2 |} ]};
     shopping_carts := <[ 3 := {| jr_user := 2; jr_target := 3 |} ]>
                         (shopping_carts sample_db);
     subscriptions := {[ 1 := {| jr_user := 1; jr_target := 2 |} ]} |}.

Definition as_bob (m : Method) (d : dict) : Request :=
  {| method := m; user := AuthUser 2 bob; data := json d |}.

Definition as_anonymous (m : Method) (d : dict) : Request :=
  {| method := m; user := AnonymousUser; data := json d |}.

(** * Properties *)

(** ** Lists and tables *)

Lemma filter_none {A} (P : A → Prop) `{!∀ x, Decision (P x)} (l : list A) :
  (∀ x, x ∈ l → ¬ P x) → filter P l = [].
Proof.
  induction l as [|x l IH]; intros Hl; [done|].
  rewrite filter_cons_False by (apply Hl, list_elem_of_here).
  apply IH. intros y Hy. by apply Hl, list_elem_of_further.
Qed.

Lemma string_app_nil_r (s : string) : (s ++ EmptyString)%string = s.
Proof.
  induction s as [|c s IH]; [done|].
  change (String c (s ++ EmptyString)%string = String c s). by f_equal.
Qed.

(** [''.join(parts)] puts the parts one after the other. *)
Lemma join_cons (s : string) (l : list string) :
  String.concat EmptyString (s :: l) = (s ++ String.concat EmptyString l)%string.
Proof.
  destruct l as [|s' l]; [|reflexivity].
  change (s = (s ++ EmptyString)%string). by rewrite string_app_nil_r.
Qed.

Lemma join_foldr (l : list string) :
  String.concat EmptyString l = foldr String.append EmptyString l.
Proof. induction l as [|s l IH]; [done|]. rewrite join_cons, IH. done. Qed.

Lemma NoDup_all_equal {A} (l : list A) (x : A) :
  NoDup l → x ∈ l → (∀ y, y ∈ l → y = x) → l = [x].
Proof.
  intros Hnd Hx Hall. destruct l as [|y l]; [by apply elem_of_nil in Hx|].
  assert (y = x) as -> by apply Hall, list_elem_of_here.
  f_equal. destruct l as [|z l]; [done|].
  assert (z = x) as -> by apply Hall, list_elem_of_further, list_elem_of_here.
  apply NoDup_cons in Hnd as [Hnotin _]. destruct Hnotin. apply list_elem_of_here.
Qed.

(** [get_object_or_404] when no row passes the filter. *)
Lemma get_object_or_404_none {Row} (table : gmap Z Row) (P : Z * Row → Prop)
    `{!∀ x, Decision (P x)} db :
  (∀ pk row, table !! pk = Some row → ¬ P (pk, row)) →
  get_object_or_404 table P db = (inl Http404, db).
Proof.
  intros Hnone. unfold get_object_or_404. rewrite filter_none; [done|].
  intros [pk row] Hin%elem_of_map_to_list. by apply Hnone.
Qed.

(** [get_object_or_404] when exactly one row passes the filter. *)
Lemma get_object_or_404_unique {Row} (table : gmap Z Row) (P : Z * Row → Prop)
    `{!∀ x, Decision (P x)} pk row db :
  table !! pk = Some row → P (pk, row) →
  (∀ pk' row', table !! pk' = Some row' → P (pk', row') → pk' = pk) →
  get_object_or_404 table P db = (inr (pk, row), db).
Proof.
  intros Hrow HP Huniq. unfold get_object_or_404.
  rewrite (NoDup_all_equal (filter P (map_to_list table)) (pk, row)); [done| | |].
  - apply NoDup_filter, NoDup_map_to_list.
  - apply list_elem_of_filter. split; [done|]. by apply elem_of_map_to_list.
  - intros [pk' row'] [HP' Hin%elem_of_map_to_list]%list_elem_of_filter.
    assert (pk' = pk) as -> by eauto. congruence.
Qed.

(** [get_object_or_404] when several rows pass the filter. *)
Lemma get_object_or_404_several {Row} (table : gmap Z Row) (P : Z * Row → Prop)
    `{!∀ x, Decision (P x)} pk1 row1 pk2 row2 db :
  table !! pk1 = Some row1 → P (pk1, row1) →
  table !! pk2 = Some row2 → P (pk2, row2) → pk1 ≠ pk2 →
  get_object_or_404 table P db = (inl MultipleObjectsReturned, db).
Proof.
  intros H1 HP1 H2 HP2 Hne. unfold get_object_or_404.
  assert ((pk1, row1) ∈ filter P (map_to_list table)) as Hin1.
  { apply list_elem_of_filter. split; [done|]. by apply elem_of_map_to_list. }
  assert ((pk2, row2) ∈ filter P (map_to_list table)) as Hin2.
  { apply list_elem_of_filter. split; [done|]. by apply elem_of_map_to_list. }
  destruct (filter P (map_to_list table)) as [|x [|y l]]; [|exfalso|done].
  - by apply elem_of_nil in Hin1.
  - apply list_elem_of_singleton in Hin1, Hin2. congruence.
Qed.

Lemma check_permissions_granted ps self db :
  Forall (λ p, has_permission p (request self) (action self) = true) ps →
  check_permissions ps self db = (inr tt, db).
Proof.
  induction 1 as [|p ps Hp _ IH]; [done|]. cbn [check_permissions].
  by rewrite Hp.
Qed.

Section properties.
Context `{!Permissions, !Serializers, !Models, !Platform}.

(** ** The shopping list *)

Lemma same_group_key r g : same_group r g ↔ group_key r = group_key g.
Proof. unfold same_group, group_key. split; [intros [-> ->]|intros [= -> ->]]; done. Qed.

Lemma add_to_groups_keys r gs :
  group_key <$> add_to_groups r gs =
  if decide (group_key r ∈ group_key <$> gs) then group_key <$> gs
  else (group_key <$> gs) ++ [group_key r].
Proof.
  induction gs as [|g gs IH].
  - cbn [add_to_groups fmap list_fmap]. case_decide as Hin; [|done].
    by apply elem_of_nil in Hin.
  - cbn [add_to_groups]. rewrite !fmap_cons.
    destruct (decide (same_group r g)) as [Hs|Hs].
    + rewrite fmap_cons. apply same_group_key in Hs.
      rewrite decide_True by (rewrite Hs; apply list_elem_of_here). done.
    + rewrite fmap_cons, IH.
      destruct (decide (group_key r ∈ group_key <$> gs)) as [Hin|Hin].
      * rewrite decide_True by (by apply list_elem_of_further). done.
      * rewrite decide_False; [done|]. intros [Heq|?]%elem_of_cons; [|done].
        apply Hs, same_group_key, Heq.
Qed.

Lemma annotate_sum_keys_NoDup rows : NoDup (group_key <$> annotate_sum rows).
Proof.
  induction rows as [|r rows IH]; simpl; [constructor|].
  rewrite add_to_groups_keys. case_decide; [done|].
  apply NoDup_app. split_and!; [done| |apply NoDup_singleton].
  intros k Hk ->%list_elem_of_singleton. done.
Qed.

Lemma annotate_sum_keys rows k :
  k ∈ group_key <$> annotate_sum rows ↔ k ∈ group_key <$> rows.
Proof.
  induction rows as [|r rows IH]; simpl; [done|].
  rewrite add_to_groups_keys, elem_of_cons. case_decide as Hin.
  - rewrite IH. split; [by right|]. intros [->|?]; [|done]. by apply IH.
  - rewrite elem_of_app, list_elem_of_singleton, IH. tauto.
Qed.

Lemma add_to_groups_amount k r gs :
  sum_amounts (filter (λ g, group_key g = k) (add_to_groups r gs)) =
  sum_amounts (filter (λ g, group_key g = k) gs)
  + (if decide (group_key r = k) then ingredient_amount r else 0).
Proof.
  induction gs as [|g gs IH]; cbn [add_to_groups].
  - rewrite filter_cons, filter_nil. case_decide; simpl; lia.
  - destruct (decide (same_group r g)) as [Hs|Hs].
    + apply same_group_key in Hs. rewrite !filter_cons.
      destruct (decide (group_key g = k)) as [Hg|Hg].
      * rewrite decide_True by exact Hg.
        rewrite decide_True by congruence. simpl. lia.
      * rewrite decide_False by exact Hg.
        rewrite decide_False by congruence. lia.
    + rewrite !filter_cons.
      destruct (decide (group_key g = k)); simpl; rewrite IH; lia.
Qed.

Lemma annotate_sum_amount k rows :
  sum_amounts (filter (λ g, group_key g = k) (annotate_sum rows)) =
  sum_amounts (filter (λ g, group_key g = k) rows).
Proof.
  induction rows as [|r rows IH]; simpl; [done|].
  rewrite add_to_groups_amount, IH, filter_cons.
  case_decide; simpl; lia.
Qed.

Lemma filter_key_NoDup (gs : list Line) g :
  NoDup (group_key <$> gs) → g ∈ gs →
  filter (λ g', group_key g' = group_key g) gs = [g].
Proof.
  induction gs as [|g0 gs IH]; simpl; [by intros _ ?%elem_of_nil|].
  intros [Hnotin Hnd]%NoDup_cons [->|Hin]%elem_of_cons.
  - rewrite filter_cons, decide_True by done. f_equal.
    apply filter_none. intros g' Hg' Heq'.
    apply Hnotin. rewrite <- Heq'. apply list_elem_of_fmap. eauto.
  - rewrite filter_cons, decide_False; [by apply IH|].
    intros Heq. apply Hnotin. rewrite Heq. apply list_elem_of_fmap. eauto.
Qed.

Lemma by_name_trans : Transitive by_name.
Proof. intros g1 g2 g3. unfold by_name. apply name_le_trans. Qed.

Lemma by_name_total : Total by_name.
Proof. intros g1 g2. unfold by_name. apply name_le_total. Qed.

Lemma shopping_list_Permutation db pk :
  shopping_list db pk ≡ₚ annotate_sum (filter_values db pk).
Proof. apply merge_sort_Permutation. Qed.

Lemma shopping_list_sorted db pk : StronglySorted by_name (shopping_list db pk).
Proof.
  apply @StronglySorted_merge_sort; [apply by_name_trans|apply by_name_total].
Qed.

Lemma shopping_list_NoDup db pk : NoDup (group_key <$> shopping_list db pk).
Proof. rewrite shopping_list_Permutation. apply annotate_sum_keys_NoDup. Qed.

Lemma shopping_list_amount db pk g :
  g ∈ shopping_list db pk →
  ingredient_amount g =
  sum_amounts (filter (λ r, same_group r g) (filter_values db pk)).
Proof.
  rewrite shopping_list_Permutation. intros Hg.
  rewrite (list_filter_iff _ (λ r, group_key r = group_key g))
    by (intros r; apply same_group_key).
  rewrite <- annotate_sum_amount.
  rewrite (filter_key_NoDup _ g (annotate_sum_keys_NoDup _) Hg). simpl. lia.
Qed.

(** The rows the query joins: one per ingredient amount and cart entry
    of the user on the same recipe. *)
Lemma elem_of_filter_values db pk l :
  l ∈ filter_values db pk ↔
  ∃ iapk ia scpk sc i,
    ingredient_amounts db !! iapk = Some ia ∧
    shopping_carts db !! scpk = Some sc ∧
    jr_user sc = pk ∧ jr_target sc = ia_recipe ia ∧
    ingredients db !! ia_ingredient ia = Some i ∧
    l = {| ingredient__name := i_name i;
           ingredient__measurement_unit := i_measurement_unit i;
           ingredient_amount := ia_amount ia |}.
Proof.
  unfold filter_values. rewrite list_elem_of_bind. split.
  - intros (ia & Hl & Hia). apply list_elem_of_fmap in Hia as ([iapk ia'] & -> & Hia).
    apply elem_of_map_to_list in Hia. simpl in Hl.
    apply list_elem_of_bind in Hl as (sc & Hl & Hsc).
    apply list_elem_of_fmap in Hsc as ([scpk sc'] & -> & Hsc).
    apply elem_of_map_to_list in Hsc. simpl in Hl.
    case_decide as Hj; [|by apply elem_of_nil in Hl]. destruct Hj as [Ht Hu].
    destruct (ingredients db !! ia_ingredient ia') as [i|] eqn:Hi;
      [|by apply elem_of_nil in Hl].
    apply list_elem_of_singleton in Hl. by exists iapk, ia', scpk, sc', i.
  - intros (iapk & ia & scpk & sc & i & Hia & Hsc & Hu & Ht & Hi & ->).
    exists ia. split.
    + apply list_elem_of_bind. exists sc. split.
      * rewrite decide_True by done. rewrite Hi. apply list_elem_of_here.
      * apply list_elem_of_fmap. exists (scpk, sc). split; [done|].
        by apply elem_of_map_to_list.
    + apply list_elem_of_fmap. exists (iapk, ia). split; [done|].
      by apply elem_of_map_to_list.
Qed.

Lemma shopping_list_keys db pk k :
  k ∈ group_key <$> shopping_list db pk ↔ k ∈ group_key <$> filter_values db pk.
Proof. rewrite shopping_list_Permutation. apply annotate_sum_keys. Qed.

(** A user with no cart entry gets no row. *)
Lemma filter_values_empty_cart db pk :
  (∀ scpk sc, shopping_carts db !! scpk = Some sc → jr_user sc ≠ pk) →
  filter_values db pk = [].
Proof.
  intros Hempty. destruct (filter_values db pk) as [|l ?] eqn:E; [done|].
  assert (l ∈ filter_values db pk) as Hl by (rewrite E; apply list_elem_of_here).
  apply elem_of_filter_values in Hl as (? & ? & scpk & sc & ? & _ & Hsc & Hu & _).
  by destruct (Hempty scpk sc Hsc).
Qed.

Lemma shopping_list_empty_cart db pk :
  (∀ scpk sc, shopping_carts db !! scpk = Some sc → jr_user sc ≠ pk) →
  shopping_list db pk = [].
Proof.
  intros Hempty. unfold shopping_list. by rewrite filter_values_empty_cart.
Qed.

(** The response of download_shopping_cart to an authenticated user,
    whatever the cart holds. *)
Lemma download_shopping_cart_response pk u d kw db :
  dispatch RecipeViewSet download_shopping_cart_route
    {| method := GET; user := AuthUser pk u; data := d |} kw db =
  (HttpResponse
     (if decide (shopping_list db pk = []) then empty_cart_text
      else (header_line ++
            foldr (λ g rest, format_line g ++ rest) EmptyString
              (shopping_list db pk))%string)
     HTTP_200_OK "text/plain"
     ("attachment; filename=" ++ DQUOTE ++ "shopping_list.txt" ++ DQUOTE),
   db).
Proof.
  unfold dispatch. cbn.
  change (select_handler RecipeViewSet download_shopping_cart_route GET)
    with (Some RecipeViewSet_download_shopping_cart).
  cbn -[String.concat shopping_list].
  rewrite join_cons, join_foldr, foldr_fmap.
  destruct (shopping_list db pk) as [|g gs]; reflexivity.
Qed.

Lemma HttpResponse_headers text status content_type disposition :
  headers (HttpResponse text status content_type disposition) !! "Content-Type"%string
    = Some content_type ∧
  headers (HttpResponse text status content_type disposition)
    !! "Content-Disposition"%string = Some disposition.
Proof.
  unfold HttpResponse. cbn [headers]. split.
  - rewrite lookup_insert_ne by done. apply lookup_singleton_eq.
  - apply lookup_insert_eq.
Qed.

(** C1.  For an authenticated user, download_shopping_cart aggregates
    the ingredient amounts of the recipes in the user's cart: there is
    exactly one group per pair (ingredient name, measurement unit) that
    some cart recipe uses, the amount of a group is the sum of the
    amounts of the joined rows with that name and unit, the groups come
    ordered by ingredient name, and when there is a group the body is
    the header line followed by one line "name: amount unit" per
    group. *)
Theorem download_shopping_cart_aggregates pk u d kw db :
  let groups := shopping_list db pk in
  NoDup ((λ g, (ingredient__name g, ingredient__measurement_unit g)) <$> groups) ∧
  (∀ name unit,
     (∃ g, g ∈ groups ∧ ingredient__name g = name ∧
           ingredient__measurement_unit g = unit) ↔
     (∃ iapk ia scpk sc i,
        ingredient_amounts db !! iapk = Some ia ∧
        shopping_carts db !! scpk = Some sc ∧
        jr_user sc = pk ∧ jr_target sc = ia_recipe ia ∧
        ingredients db !! ia_ingredient ia = Some i ∧
        i_name i = name ∧ i_measurement_unit i = unit)) ∧
  (∀ g, g ∈ groups →
     ingredient_amount g =
     sum_amounts (filter (λ r, same_group r g) (filter_values db pk))) ∧
  StronglySorted (λ g1 g2, name_le (ingredient__name g1) (ingredient__name g2))
    groups ∧
  (groups ≠ [] →
   content (dispatch RecipeViewSet download_shopping_cart_route
              {| method := GET; user := AuthUser pk u; data := d |} kw db).1 =
   Text (("Список покупок:" ++ LF) ++
         foldr (λ g rest,
                  (ingredient__name g ++ ": " ++ pretty (ingredient_amount g)
                   ++ " " ++ ingredient__measurement_unit g ++ LF) ++ rest)
           EmptyString groups)%string).
Proof.
  intros groups. split_and!.
  - apply shopping_list_NoDup.
  - intros name unit. split.
    + intros (g & Hg & <- & <-).
      assert (group_key g ∈ group_key <$> filter_values db pk) as Hk.
      { apply shopping_list_keys, list_elem_of_fmap. eauto. }
      apply list_elem_of_fmap in Hk as (r & Hk & Hr).
      apply elem_of_filter_values in Hr
        as (iapk & ia & scpk & sc & i & ? & ? & ? & ? & ? & ->).
      injection Hk as -> ->. by exists iapk, ia, scpk, sc, i.
    + intros (iapk & ia & scpk & sc & i & Hia & Hsc & Hu & Ht & Hi & <- & <-).
      assert ((i_name i, i_measurement_unit i)
              ∈ group_key <$> shopping_list db pk) as Hk.
      { apply shopping_list_keys, list_elem_of_fmap.
        eexists. split; [|apply elem_of_filter_values;
                           by exists iapk, ia, scpk, sc, i]. done. }
      apply list_elem_of_fmap in Hk as (g & [= Hn Hm] & Hg). by exists g.
  - apply shopping_list_amount.
  - apply shopping_list_sorted.
  - intros Hne. rewrite download_shopping_cart_response. cbn [fst].
    fold groups. rewrite decide_False by done. reflexivity.
Qed.

(** C2.  For an authenticated user with an empty cart the body of
    download_shopping_cart is exactly the empty-cart message; with a
    non-empty cart the response has status 200, Content-Type text/plain
    and the Content-Disposition of an attachment named
    shopping_list.txt. *)
Theorem download_shopping_cart_body_and_headers pk u d kw db :
  let response :=
    (dispatch RecipeViewSet download_shopping_cart_route
       {| method := GET; user := AuthUser pk u; data := d |} kw db).1 in
  ((∀ scpk sc, shopping_carts db !! scpk = Some sc → jr_user sc ≠ pk) →
   content response = Text "В вашей корзине пусто") ∧
  ((∃ scpk sc, shopping_carts db !! scpk = Some sc ∧ jr_user sc = pk) →
   status_code response = 200 ∧
   headers response !! "Content-Type"%string = Some "text/plain"%string ∧
   headers response !! "Content-Disposition"%string =
     Some ("attachment; filename=" ++ DQUOTE ++ "shopping_list.txt" ++ DQUOTE)%string).
Proof.
  intros response. unfold response. rewrite download_shopping_cart_response.
  cbn [fst]. split.
  - intros Hempty. rewrite shopping_list_empty_cart by done. reflexivity.
  - intros _. split; [reflexivity|]. apply HttpResponse_headers.
Qed.

(** C10.  For an authenticated user with an empty cart,
    download_shopping_cart still answers 200 with Content-Type
    text/plain and Content-Disposition attachment;
    filename="shopping_list.txt": the empty-cart message is served as
    the same attachment as the listing. *)
Theorem empty_cart_is_served_as_attachment pk u d kw db :
  (∀ scpk sc, shopping_carts db !! scpk = Some sc → jr_user sc ≠ pk) →
  let response :=
    (dispatch RecipeViewSet download_shopping_cart_route
       {| method := GET; user := AuthUser pk u; data := d |} kw db).1 in
  status_code response = 200 ∧
  content response = Text "В вашей корзине пусто" ∧
  headers response !! "Content-Type"%string = Some "text/plain"%string ∧
  headers response !! "Content-Disposition"%string =
    Some ("attachment; filename=" ++ DQUOTE ++ "shopping_list.txt" ++ DQUOTE)%string.
Proof.
  intros Hempty response. unfold response.
  rewrite download_shopping_cart_response. cbn [fst].
  rewrite shopping_list_empty_cart by done.
  split; [reflexivity|]. split; [reflexivity|]. apply HttpResponse_headers.
Qed.

(** ** Dispatch *)

(** A request that passes the permission checks and whose method has a
    handler gets the handler's response, or the response the exception
    handler makes of what the handler raised. *)
Lemma dispatch_handler V route req kw db handler :
  let self := {| request := req; kwargs := kw;
                 action := view_action route (method req) |} in
  Forall (λ p, has_permission p req (view_action route (method req)) = true)
    (get_permissions V route) →
  select_handler V route (method req) = Some handler →
  dispatch V route req kw db =
  match handler self kw db with
  | (inl e, db') => (handle_exception e, db')
  | (inr response, db') => (response, db')
  end.
Proof.
  intros self Hperm Hsel. unfold dispatch, bind. fold self.
  rewrite check_permissions_granted by exact Hperm. by rewrite Hsel.
Qed.

Lemma getitem_singleton (key : string) (v : value) db :
  getitem {[ key := v ]} key db = (inr v, db).
Proof. unfold getitem. by rewrite lookup_singleton_eq. Qed.

Lemma objects_set_objects k t db : objects k (set_objects k t db) = t.
Proof. by destruct k. Qed.

Lemma objects_set_objects_ne k k' t db :
  k ≠ k' → objects k' (set_objects k t db) = objects k' db.
Proof. by destruct k, k'. Qed.

Lemma only_changes_refl k db : only_changes k db db.
Proof. by repeat split. Qed.

Lemma only_changes_set_objects k t db : only_changes k db (set_objects k t db).
Proof.
  unfold only_changes. split_and!; try (by destruct k).
  intros k' Hne. by apply objects_set_objects_ne.
Qed.

(** ** Deleting a join record *)

Lemma join_permissions k req a :
  is_authenticated req = true →
  (k = Subscription → has_permission AuthorOrReadOnly req a = true) →
  Forall (λ p, has_permission p req a = true)
    (get_permissions (join_view k) create_destroy_route).
Proof.
  intros Hauth Hperm. destruct k; repeat constructor; auto.
Qed.

Lemma destroy_not_found k pk u m d t a kw db :
  let self := {| request := {| method := m; user := AuthUser pk u; data := d |};
                 kwargs := {[ lookup_kwarg k := VInt t ]};
                 action := a |} in
  (∀ rpk row, objects k db !! rpk = Some row →
              ¬ (jr_target row = t ∧ jr_user row = pk)) →
  destroy k self kw db = (inl Http404, db).
Proof.
  intros self Hnone. unfold destroy, bind. cbn [kwargs self request user].
  rewrite getitem_singleton. cbn [as_pk ret get_db].
  rewrite get_object_or_404_none; [done|].
  intros rpk row Hrow. exact (Hnone rpk row Hrow).
Qed.

Lemma destroy_found k pk u m d t a kw db rpk row :
  let self := {| request := {| method := m; user := AuthUser pk u; data := d |};
                 kwargs := {[ lookup_kwarg k := VInt t ]};
                 action := a |} in
  objects k db !! rpk = Some row → jr_target row = t → jr_user row = pk →
  (∀ rpk' row', objects k db !! rpk' = Some row' →
                jr_target row' = t → jr_user row' = pk → rpk' = rpk) →
  destroy k self kw db =
  (inr (Response_ NoBody HTTP_204_NO_CONTENT ∅),
   set_objects k (delete rpk (objects k db)) db).
Proof.
  intros self Hrow Ht Hu Huniq. unfold destroy, bind.
  cbn [kwargs self request user]. rewrite getitem_singleton. cbn [as_pk ret get_db].
  rewrite (get_object_or_404_unique _ _ rpk row); [done|done|done|].
  intros rpk' row' Hrow' [??]. eauto.
Qed.

(** C3.  For an authenticated user and a target id, DELETE on a
    Favorite, ShoppingCart or Subscription looks the record up by
    (target id, current user).  If there is none, the answer is 404 and
    the database is unchanged; if there is one (the pair's only one),
    the answer is 204 with no body and exactly that record is removed:
    afterwards the table has no row under its key, every other row of
    the table is as it was, and no other table has changed.  The
    permission class of the subscribe view is taken to let the
    authenticated user through. *)
Theorem join_record_delete k pk u d t db :
  let req := {| method := DELETE; user := AuthUser pk u; data := d |} in
  let kw : Kwargs := {[ lookup_kwarg k := VInt t ]} in
  (k = Subscription →
   has_permission AuthorOrReadOnly req (Some "destroy"%string) = true) →
  ((∀ rpk row, objects k db !! rpk = Some row →
               ¬ (jr_target row = t ∧ jr_user row = pk)) →
   dispatch (join_view k) create_destroy_route req kw db =
   ({| status_code := 404; content := Detail Http404; headers := ∅ |}, db)) ∧
  (∀ rpk row,
     objects k db !! rpk = Some row → jr_target row = t → jr_user row = pk →
     (∀ rpk' row', objects k db !! rpk' = Some row' →
                   jr_target row' = t → jr_user row' = pk → rpk' = rpk) →
     let result := dispatch (join_view k) create_destroy_route req kw db in
     result =
     ({| status_code := 204; content := NoBody; headers := ∅ |},
      set_objects k (delete rpk (objects k db)) db) ∧
     objects k result.2 !! rpk = None ∧
     (∀ rpk', rpk' ≠ rpk → objects k result.2 !! rpk' = objects k db !! rpk') ∧
     only_changes k db result.2).
Proof.
  intros req kw Hperm.
  assert (select_handler (join_view k) create_destroy_route (method req)
          = Some (destroy k)) as Hsel by (by destruct k).
  pose proof (join_permissions k req (Some "destroy"%string) eq_refl Hperm) as Hps.
  split.
  - intros Hnone.
    rewrite (dispatch_handler (join_view k) create_destroy_route req kw db
               (destroy k) Hps Hsel).
    unfold req, kw. by rewrite destroy_not_found.
  - intros rpk row Hrow Ht Hu Huniq result.
    assert (result =
            (Response_ NoBody HTTP_204_NO_CONTENT ∅,
             set_objects k (delete rpk (objects k db)) db)) as ->.
    { unfold result.
      rewrite (dispatch_handler (join_view k) create_destroy_route req kw db
                 (destroy k) Hps Hsel).
      unfold req, kw.
      by rewrite (destroy_found k pk u DELETE d t _ _ db rpk row Hrow Ht Hu Huniq). }
    cbn [snd]. rewrite objects_set_objects. split_and!.
    + done.
    + apply lookup_delete_eq.
    + intros rpk' Hne. by apply lookup_delete_ne.
    + apply only_changes_set_objects.
Qed.

(** X9.  Without the uniqueness of the pair the lookup of DELETE has no
    single answer: with two records for (target, user) it raises
    MultipleObjectsReturned, and the request ends as a server error
    with both records still there. *)
Lemma join_record_delete_duplicates k pk u d t db rpk1 row1 rpk2 row2 :
  let req := {| method := DELETE; user := AuthUser pk u; data := d |} in
  let kw : Kwargs := {[ lookup_kwarg k := VInt t ]} in
  (k = Subscription →
   has_permission AuthorOrReadOnly req (Some "destroy"%string) = true) →
  objects k db !! rpk1 = Some row1 → jr_target row1 = t → jr_user row1 = pk →
  objects k db !! rpk2 = Some row2 → jr_target row2 = t → jr_user row2 = pk →
  rpk1 ≠ rpk2 →
  dispatch (join_view k) create_destroy_route req kw db =
  ({| status_code := 500; content := Detail MultipleObjectsReturned;
      headers := ∅ |}, db).
Proof.
  intros req kw Hperm Hrow1 Ht1 Hu1 Hrow2 Ht2 Hu2 Hne.
  assert (select_handler (join_view k) create_destroy_route (method req)
          = Some (destroy k)) as Hsel by (by destruct k).
  pose proof (join_permissions k req (Some "destroy"%string) eq_refl Hperm) as Hps.
  rewrite (dispatch_handler (join_view k) create_destroy_route req kw db
             (destroy k) Hps Hsel).
  unfold req, kw, destroy, bind. cbn [kwargs request user].
  rewrite getitem_singleton. cbn [as_pk ret get_db].
  by rewrite (get_object_or_404_several _ _ rpk1 row1 rpk2 row2).
Qed.

(** ** Creating a join record *)

Lemma get_target_or_404_spec k t db :
  get_target_or_404 k t db =
  if target_exists k db t then (inr t, db) else (inl Http404, db).
Proof.
  unfold get_target_or_404, target_exists, get_by_pk_or_404, bind, get_db.
  destruct k.
  - destruct (recipes db !! t) eqn:E; [rewrite bool_decide_true by eauto|
      rewrite bool_decide_false by (by intros [??])]; done.
  - destruct (recipes db !! t) eqn:E; [rewrite bool_decide_true by eauto|
      rewrite bool_decide_false by (by intros [??])]; done.
  - destruct (users db !! t) eqn:E; [rewrite bool_decide_true by eauto|
      rewrite bool_decide_false by (by intros [??])]; done.
Qed.

Lemma Model_create_fresh k row db :
  (unique_together k = true →
   ∀ rpk row', objects k db !! rpk = Some row' →
               ¬ (jr_user row' = jr_user row ∧ jr_target row' = jr_target row)) →
  Model_create k row db =
  (inr (fresh (dom (objects k db)), row),
   set_objects k (<[ fresh (dom (objects k db)) := row ]> (objects k db)) db).
Proof.
  intros Hnew. unfold Model_create, bind, get_db.
  destruct (unique_together k) eqn:Hu; [|done]. cbn [andb].
  rewrite bool_decide_false; [done|].
  intros ([rpk row'] & Hin%elem_of_map_to_list & Hsame)%Exists_exists.
  by apply (Hnew eq_refl rpk row').
Qed.

Lemma fresh_pk_unused {Row} (table : gmap Z Row) : table !! fresh (dom table) = None.
Proof. apply not_elem_of_dom, is_fresh. Qed.

Lemma create_not_found k pk u m d t a kw db validated :
  let self := {| request := {| method := m; user := AuthUser pk u; data := d |};
                 kwargs := {[ lookup_kwarg k := VInt t ]};
                 action := a |} in
  js_run_validation (serializer_class k) self db d = inr validated →
  target_exists k db t = false →
  CreateModelMixin_create k self kw db = (inl Http404, db).
Proof.
  intros self Hvalid Hmissing. unfold CreateModelMixin_create, bind, get_db.
  cbn [request self data]. rewrite Hvalid. cbn [is_valid_or_raise ret].
  unfold perform_create, bind. cbn [kwargs self]. rewrite getitem_singleton.
  cbn [as_pk ret]. rewrite get_target_or_404_spec, Hmissing. done.
Qed.

Lemma create_created k pk u m d t a kw db validated :
  let self := {| request := {| method := m; user := AuthUser pk u; data := d |};
                 kwargs := {[ lookup_kwarg k := VInt t ]};
                 action := a |} in
  let row := {| jr_user := pk; jr_target := t |} in
  let rpk := fresh (dom (objects k db)) in
  let db' := set_objects k (<[ rpk := row ]> (objects k db)) db in
  let repr := js_to_representation (serializer_class k) self db' (rpk, row) in
  js_run_validation (serializer_class k) self db d = inr validated →
  target_exists k db t = true →
  (unique_together k = true →
   ∀ rpk' row', objects k db !! rpk' = Some row' →
                ¬ (jr_user row' = pk ∧ jr_target row' = t)) →
  CreateModelMixin_create k self kw db =
  (inr (Response_ (Data repr) HTTP_201_CREATED (get_success_headers repr)), db').
Proof.
  intros self row rpk db' repr Hvalid Hexists Hnew.
  unfold CreateModelMixin_create, bind, get_db.
  cbn [request self data]. rewrite Hvalid. cbn [is_valid_or_raise ret].
  unfold perform_create, bind. cbn [kwargs self]. rewrite getitem_singleton.
  cbn [as_pk ret]. rewrite get_target_or_404_spec, Hexists.
  cbn [request user self]. rewrite Model_create_fresh by exact Hnew. done.
Qed.

(** C4.  For an authenticated user whose payload the serializer
    accepts, a POST that creates a Favorite, ShoppingCart or
    Subscription for a target (recipe or author) that does not exist
    answers 404 and creates nothing; when the target exists (and the
    model's uniqueness constraint, if it declares one, is not in the
    way) the answer is 201 with the serialized record, and a record
    binding the user to the target has been created: afterwards the
    table holds that record under a key it did not use before, every
    other row of the table is as it was, and no other table has
    changed.  The permission class of the subscribe view is taken to
    let the authenticated user through. *)
Theorem join_record_create k pk u d t db validated :
  let req := {| method := POST; user := AuthUser pk u; data := d |} in
  let kw : Kwargs := {[ lookup_kwarg k := VInt t ]} in
  let self := {| request := req; kwargs := kw; action := Some "create"%string |} in
  (k = Subscription →
   has_permission AuthorOrReadOnly req (Some "create"%string) = true) →
  js_run_validation (serializer_class k) self db d = inr validated →
  (target_exists k db t = false →
   dispatch (join_view k) create_destroy_route req kw db =
   ({| status_code := 404; content := Detail Http404; headers := ∅ |}, db)) ∧
  (target_exists k db t = true →
   (unique_together k = true →
    ∀ rpk' row', objects k db !! rpk' = Some row' →
                 ¬ (jr_user row' = pk ∧ jr_target row' = t)) →
   ∃ rpk,
     objects k db !! rpk = None ∧
     let row := {| jr_user := pk; jr_target := t |} in
     let db' := set_objects k (<[ rpk := row ]> (objects k db)) db in
     let repr := js_to_representation (serializer_class k) self db' (rpk, row) in
     let result := dispatch (join_view k) create_destroy_route req kw db in
     result =
     ({| status_code := 201; content := Data repr;
         headers := get_success_headers repr |}, db') ∧
     objects k result.2 !! rpk = Some row ∧
     (∀ rpk', rpk' ≠ rpk → objects k result.2 !! rpk' = objects k db !! rpk') ∧
     only_changes k db result.2).
Proof.
  intros req kw self Hperm Hvalid.
  assert (select_handler (join_view k) create_destroy_route (method req)
          = Some (CreateModelMixin_create k)) as Hsel by (by destruct k).
  pose proof (join_permissions k req (Some "create"%string) eq_refl Hperm) as Hps.
  split.
  - intros Hmissing.
    rewrite (dispatch_handler (join_view k) create_destroy_route req kw db
               (CreateModelMixin_create k) Hps Hsel).
    unfold req, kw.
    by rewrite (create_not_found k pk u POST d t _ _ db validated Hvalid Hmissing).
  - intros Hexists Hnew. exists (fresh (dom (objects k db))).
    split; [apply fresh_pk_unused|]. intros row db' repr result.
    assert (result =
            (Response_ (Data repr) HTTP_201_CREATED (get_success_headers repr), db'))
      as ->.
    { unfold result.
      rewrite (dispatch_handler (join_view k) create_destroy_route req kw db
                 (CreateModelMixin_create k) Hps Hsel).
      unfold req, kw.
      by rewrite (create_created k pk u POST d t _ _ db validated
                    Hvalid Hexists Hnew). }
    cbn [snd]. unfold db'. rewrite objects_set_objects. split_and!.
    + done.
    + apply lookup_insert_eq.
    + intros rpk' Hne. by apply lookup_insert_ne.
    + apply only_changes_set_objects.
Qed.

(** ** UserViewSet: update and set_password *)

(** What the permission check of a request leaves: it passes, or the
    request is refused as unauthenticated or as forbidden. *)
Lemma check_permissions_cases ps self db :
  check_permissions ps self db = (inr tt, db) ∨
  check_permissions ps self db =
    (inl (if is_authenticated (request self) then PermissionDenied
          else NotAuthenticated), db).
Proof.
  induction ps as [|p ps IH]; [by left|]. cbn [check_permissions].
  destruct (has_permission p (request self) (action self)); [done|].
  right. unfold permission_denied. by destruct (is_authenticated (request self)).
Qed.

(** PUT on a user URL.  The router passes [update] the URL keyword
    arguments only, so [kwargs['partial']] has no such key. *)
Lemma UserViewSet_update_no_partial self kw db :
  kw !! "partial"%string = None →
  UserViewSet_update self kw db = (inl (KeyError "partial"), db).
Proof. intros Hkw. unfold UserViewSet_update, bind, getitem. by rewrite Hkw. Qed.

(** C5 (what the code does).  A PUT on /users/{id} that passes the
    permission class reaches [update] without a [partial] keyword
    argument: the lookup raises KeyError and the request ends as a
    server error, status 500, not 403; the database is unchanged. *)
Theorem user_put_is_server_error usr d id db :
  let req := {| method := PUT; user := usr; data := d |} in
  dispatch UserViewSet detail_route req {[ "pk"%string := VInt id ]} db =
  if has_permission AuthorRegistrationOrReadOnly req (Some "update"%string)
  then ({| status_code := 500; content := Detail (KeyError "partial");
           headers := ∅ |}, db)
  else (handle_exception (if is_authenticated req then PermissionDenied
                          else NotAuthenticated), db).
Proof.
  intros req. unfold dispatch, bind. cbn [method req].
  change (view_action detail_route PUT) with (Some "update"%string).
  change (select_handler UserViewSet detail_route PUT) with (Some UserViewSet_update).
  cbn [get_permissions UserViewSet permission_classes detail_route
       route_permission_classes default check_permissions request action].
  destruct (has_permission AuthorRegistrationOrReadOnly req (Some "update"%string)).
  - cbn [ret]. rewrite UserViewSet_update_no_partial; [done|].
    by apply lookup_singleton_ne.
  - unfold permission_denied. by destruct (is_authenticated req).
Qed.

(** X13.  PATCH on a user URL goes through [partial_update] to [update] with
    [partial] set, and from there to the inherited update. *)
Lemma user_patch_proceeds usr d id db :
  let req := {| method := PATCH; user := usr; data := d |} in
  let kw : Kwargs := {[ "pk"%string := VInt id ]} in
  has_permission AuthorRegistrationOrReadOnly req (Some "partial_update"%string)
    = true →
  dispatch UserViewSet detail_route req kw db =
  match super_update {| request := req; kwargs := kw;
                        action := Some "partial_update"%string |}
          (<[ "partial"%string := VBool true ]> kw) db with
  | (inl e, db') => (handle_exception e, db')
  | (inr response, db') => (response, db')
  end.
Proof.
  intros req kw Hperm.
  rewrite (dispatch_handler UserViewSet detail_route req kw db
             (UpdateModelMixin_partial_update UserViewSet_update));
    [|by repeat constructor|done].
  unfold UpdateModelMixin_partial_update, UserViewSet_update, bind, getitem.
  rewrite lookup_insert_eq. done.
Qed.

(** The response of set_password to an authenticated user. *)
Lemma set_password_response pk u d kw db :
  dispatch UserViewSet set_password_route
    {| method := POST; user := AuthUser pk u; data := d |} kw db =
  match PasswordSerializer d with
  | inl errors => (Response_ (Data errors) HTTP_400_BAD_REQUEST ∅, db)
  | inr valid =>
      if check_password (current_password valid) (u_password u)
      then (Response_ NoBody HTTP_204_NO_CONTENT ∅,
            set_users (<[ pk := set_password (new_password valid) u ]> (users db)) db)
      else (Response_ (Data wrong_password) HTTP_400_BAD_REQUEST ∅, db)
  end.
Proof.
  rewrite (dispatch_handler UserViewSet set_password_route _ kw db
             UserViewSet_set_password); [|by repeat constructor|done].
  unfold UserViewSet_set_password. cbn [request data user].
  destruct (PasswordSerializer d) as [errors|valid]; [done|].
  by destruct (check_password (current_password valid) (u_password u)).
Qed.

(** C6.  For an authenticated user and a payload the serializer
    accepts: if current_password does not match the user's credential,
    set_password answers 400 with an error under the key
    current_password; if it matches, the stored credential becomes the
    encoding of new_password (no other user is touched) and the answer
    is 204. *)
Theorem set_password_checks_current_password pk u d kw db valid :
  let req := {| method := POST; user := AuthUser pk u; data := d |} in
  PasswordSerializer d = inr valid →
  (check_password (current_password valid) (u_password u) = false →
   dispatch UserViewSet set_password_route req kw db =
   ({| status_code := 400;
       content := Data {[ "current_password"%string := VStr "Неверный пароль" ]};
       headers := ∅ |}, db)) ∧
  (check_password (current_password valid) (u_password u) = true →
   ∃ db',
     dispatch UserViewSet set_password_route req kw db =
     ({| status_code := 204; content := NoBody; headers := ∅ |}, db') ∧
     users db' !! pk = Some {| u_password := make_password (new_password valid);
                               u_profile := u_profile u |} ∧
     (∀ pk', pk' ≠ pk → users db' !! pk' = users db !! pk')).
Proof.
  intros req Hvalid. unfold req. rewrite set_password_response, Hvalid. split.
  - by intros ->.
  - intros ->. eexists. split; [done|]. cbn [users set_users]. split.
    + apply lookup_insert_eq.
    + intros pk' Hne. by apply lookup_insert_ne.
Qed.

(** C9.  When set_password fails, because the serializer rejects the
    payload or because current_password does not match, the database
    (the stored credential with it) is unchanged; the database differs
    only after the answer 204. *)
Theorem set_password_failure_keeps_credential pk u d kw db :
  let result :=
    dispatch UserViewSet set_password_route
      {| method := POST; user := AuthUser pk u; data := d |} kw db in
  (∀ errors, PasswordSerializer d = inl errors →
     status_code result.1 = 400 ∧ result.2 = db) ∧
  (∀ valid, PasswordSerializer d = inr valid →
     check_password (current_password valid) (u_password u) = false →
     status_code result.1 = 400 ∧ result.2 = db) ∧
  (status_code result.1 ≠ 204 → result.2 = db).
Proof.
  intros result. unfold result. rewrite set_password_response. split_and!.
  - by intros errors ->.
  - by intros valid -> ->.
  - destruct (PasswordSerializer d) as [errors|valid]; [done|].
    destruct (check_password (current_password valid) (u_password u)); [|done].
    intros Hne. by destruct Hne.
Qed.

(** ** RecipeViewSet: create *)

Lemma get_serializer_class_create self :
  action self = Some "create"%string →
  RecipeViewSet_get_serializer_class self = RecipeInteractSerializer.
Proof.
  intros Ha. unfold RecipeViewSet_get_serializer_class.
  rewrite decide_False; [done|]. rewrite Ha. by intros [?|?].
Qed.

Lemma get_serializer_class_read self :
  action self = Some "list"%string ∨ action self = Some "retrieve"%string →
  RecipeViewSet_get_serializer_class self = RecipeReadSerializer.
Proof.
  intros Ha. unfold RecipeViewSet_get_serializer_class. by rewrite decide_True.
Qed.

(** The response of a recipe POST that the permission class lets
    through, in terms of the two serializers. *)
Lemma recipe_create_response pk u d kw db :
  let req := {| method := POST; user := AuthUser pk u; data := d |} in
  let req' := {| method := POST; user := AuthUser pk u;
                 data := <[ "author"%string := VInt pk ]> d |} in
  has_permission AuthorOrReadOnly req (Some "create"%string) = true →
  dispatch RecipeViewSet list_route req kw db =
  if immutable d
  then (Response_ (Detail AttributeError) HTTP_500_INTERNAL_SERVER_ERROR ∅, db)
  else
    match run_validation RecipeInteractSerializer req' db None false (data req') with
    | inl errors => (Response_ (Data errors) HTTP_400_BAD_REQUEST ∅, db)
    | inr validated =>
        match create RecipeInteractSerializer validated db with
        | (inl e, db') => (handle_exception e, db')
        | (inr instance, db') =>
            let show := to_representation RecipeReadSerializer req' db' instance in
            (Response_ (Data show) HTTP_201_CREATED (get_success_headers show), db')
        end
    end.
Proof.
  intros req req' Hperm.
  rewrite (dispatch_handler RecipeViewSet list_route req kw db RecipeViewSet_create);
    [|by repeat constructor|done].
  unfold RecipeViewSet_create, set_author, bind, get_db.
  cbn [request user_id user data method req].
  destruct (immutable d); [done|]. cbn [ret].
  rewrite get_serializer_class_create by done.
  cbn [request data]. fold req'. cbn [data req'].
  destruct (run_validation RecipeInteractSerializer req' db None false _)
    as [errors|validated]; [done|].
  cbn [is_valid_or_raise ret].
  by destruct (create RecipeInteractSerializer validated db) as [[e|instance] db'].
Qed.

(** C7 (what the code does).  Recipe creation assigns the author into
    the payload itself.  A form-encoded payload is an immutable
    QueryDict: for an authenticated user whom the permission class
    lets through, the assignment raises AttributeError before any
    serializer runs, and the request ends as a server error, status
    500, with nothing persisted, whatever the payload holds. *)
Theorem recipe_create_form_payload_is_server_error pk u d kw db :
  let req := {| method := POST; user := AuthUser pk u; data := form d |} in
  dispatch RecipeViewSet list_route req kw db =
  if has_permission AuthorOrReadOnly req (Some "create"%string)
  then ({| status_code := 500; content := Detail AttributeError; headers := ∅ |},
        db)
  else ({| status_code := 403; content := Detail PermissionDenied; headers := ∅ |},
        db).
Proof.
  intros req.
  destruct (has_permission AuthorOrReadOnly req (Some "create"%string)) eqn:Hperm.
  - unfold req in *. by rewrite (recipe_create_response pk u (form d) kw db Hperm).
  - unfold dispatch, bind, req.
    cbn [get_permissions RecipeViewSet permission_classes list_route
         route_permission_classes default check_permissions request action method].
    change (view_action list_route POST) with (Some "create"%string).
    fold req. by rewrite Hperm.
Qed.

(** X20.  For an authenticated user and a payload that takes the
    assignment (a JSON payload) and is valid once its author is set,
    recipe creation hands the serializer a payload whose author is the
    authenticated user, whatever author the request carried; the
    recipe is persisted with that author (the author being a writable
    field of the write serializer), and the 201 response body is the
    read serializer's representation of the created recipe. *)
Theorem recipe_create_sets_author pk u d kw db validated instance db' :
  let req := {| method := POST; user := AuthUser pk u; data := d |} in
  let req' := {| method := POST; user := AuthUser pk u;
                 data := <[ "author"%string := VInt pk ]> d |} in
  immutable d = false →
  has_permission AuthorOrReadOnly req (Some "create"%string) = true →
  author_is_written RecipeInteractSerializer →
  run_validation RecipeInteractSerializer req' db None false (data req')
    = inr validated →
  create RecipeInteractSerializer validated db = (inr instance, db') →
  items (data req') !! "author"%string = Some (VInt pk) ∧
  recipes db' !! instance.1 = Some instance.2 ∧
  r_author instance.2 = pk ∧
  dispatch RecipeViewSet list_route req kw db =
  ({| status_code := 201;
      content := Data (to_representation RecipeReadSerializer req' db' instance);
      headers := get_success_headers
                   (to_representation RecipeReadSerializer req' db' instance) |},
   db').
Proof.
  intros req req' Hmutable Hperm Hwritten Hvalid Hcreate.
  assert (items (data req') !! "author"%string = Some (VInt pk)) as Hauthor
    by apply lookup_insert_eq.
  destruct (Hwritten req' db (data req') validated instance db' pk
              Hvalid Hcreate Hauthor) as [Ha Hrow].
  split_and!; [done|done|done|].
  unfold req, req' in *.
  rewrite (recipe_create_response pk u d kw db Hperm), Hmutable.
  by rewrite Hvalid, Hcreate.
Qed.

(** ** RecipeViewSet: methods *)

Lemma recipe_methods route m handler :
  select_handler RecipeViewSet route m = Some handler →
  m ∈ [GET; POST; PATCH; DELETE].
Proof.
  unfold select_handler. destruct m; try done; intros _.
  - apply list_elem_of_here.
  - apply list_elem_of_further, list_elem_of_here.
  - do 2 apply list_elem_of_further. apply list_elem_of_here.
  - do 3 apply list_elem_of_further. apply list_elem_of_here.
Qed.

Lemma recipe_put_not_dispatched route usr d kw db :
  let req := {| method := PUT; user := usr; data := d |} in
  select_handler RecipeViewSet route PUT = None ∧
  ∃ e, (e = NotAuthenticated ∨ e = PermissionDenied ∨ e = MethodNotAllowed) ∧
       dispatch RecipeViewSet route req kw db = (handle_exception e, db).
Proof.
  intros req. split; [done|]. unfold dispatch, bind.
  match goal with
  | |- context [check_permissions ?ps ?self db] =>
      destruct (check_permissions_cases ps self db) as [-> | ->]
  end.
  - exists MethodNotAllowed. split; [auto|]. done.
  - unfold is_authenticated. cbn [request user req].
    destruct usr; eexists; (split; [|reflexivity]); auto.
Qed.

Lemma get_object_denied {Row} (table : DB → gmap Z Row) as_obj p self db pk row :
  kwargs self !! "pk"%string = Some (VInt pk) →
  table db !! pk = Some row →
  is_authenticated (request self) = true →
  has_object_permission p (request self) (as_obj pk row) = false →
  get_object table as_obj [p] self db = (inl PermissionDenied, db).
Proof.
  intros Hkw Hrow Hauth Hdenied. unfold get_object, bind, get_db, get_by_pk_or_404.
  rewrite Hkw, Hrow. cbn [ret fst snd check_object_permissions].
  rewrite Hdenied. unfold permission_denied. by rewrite Hauth.
Qed.

(** PATCH and DELETE on a recipe reach [get_object], which asks the
    permission class about the recipe before anything is changed. *)
Lemma recipe_object_permission_denied m pk u d rpk r db :
  let req := {| method := m; user := AuthUser pk u; data := d |} in
  m = PATCH ∨ m = DELETE →
  has_permission AuthorOrReadOnly req (view_action detail_route m) = true →
  recipes db !! rpk = Some r →
  has_object_permission AuthorOrReadOnly req (RecipeObj rpk r) = false →
  dispatch RecipeViewSet detail_route req {[ "pk"%string := VInt rpk ]} db =
  (handle_exception PermissionDenied, db).
Proof.
  intros req [-> | ->] Hperm Hrow Hdenied.
  - rewrite (dispatch_handler RecipeViewSet detail_route req _ db
               (UpdateModelMixin_partial_update RecipeViewSet_update));
      [|by repeat constructor|done].
    unfold UpdateModelMixin_partial_update, RecipeViewSet_update,
      UpdateModelMixin_update, bind.
    rewrite (get_object_denied recipes RecipeObj _ _ db rpk r);
      [done|apply lookup_singleton_eq|done|done|done].
  - rewrite (dispatch_handler RecipeViewSet detail_route req _ db
               RecipeViewSet_destroy); [|by repeat constructor|done].
    unfold RecipeViewSet_destroy, bind.
    rewrite (get_object_denied recipes RecipeObj _ _ db rpk r);
      [done|apply lookup_singleton_eq|done|done|done].
Qed.

End properties.

(** ** RecipeViewSet under the permission class of the spec *)

Section author_or_read_only.
Context `{!Serializers, !Models, !Platform}.
#[local] Existing Instance spec_permissions.

(** C8.  On the recipe endpoints only GET, POST, PATCH and DELETE reach
    a handler; a PUT never does, on any route: it is answered by the
    permission check or as method-not-allowed, and nothing changes.
    With the author-or-read-only permission of the spec, a PATCH or a
    DELETE on a recipe by an authenticated user who is not its author
    is answered 403, permission denied, and nothing changes. *)
Theorem recipe_methods_and_author_only :
  (∀ route m handler,
     select_handler RecipeViewSet route m = Some handler →
     m ∈ [GET; POST; PATCH; DELETE]) ∧
  (∀ route usr d kw db,
     select_handler RecipeViewSet route PUT = None ∧
     ∃ e, (e = NotAuthenticated ∨ e = PermissionDenied ∨ e = MethodNotAllowed) ∧
          dispatch RecipeViewSet route {| method := PUT; user := usr; data := d |}
            kw db = (handle_exception e, db)) ∧
  (∀ m pk u d rpk r db,
     m = PATCH ∨ m = DELETE →
     recipes db !! rpk = Some r → r_author r ≠ pk →
     dispatch RecipeViewSet detail_route
       {| method := m; user := AuthUser pk u; data := d |}
       {[ "pk"%string := VInt rpk ]} db =
     ({| status_code := 403; content := Detail PermissionDenied; headers := ∅ |},
      db)).
Proof.
  split_and!.
  - apply recipe_methods.
  - intros route usr d kw db. apply recipe_put_not_dispatched.
  - intros m pk u d rpk r db Hm Hrow Hauthor.
    rewrite (recipe_object_permission_denied m pk u d rpk r db Hm); [done| |done|].
    + by destruct Hm as [-> | ->].
    + cbn. rewrite bool_decide_false by done. by destruct Hm as [-> | ->].
Qed.

End author_or_read_only.

(** * Further properties of the views *)

Section further_properties.
Context `{!Permissions, !Serializers, !Models, !Platform}.

(** ** Dispatch *)

(** A request whose method has no handler is answered by the permission
    check or as method-not-allowed, and changes nothing. *)
Lemma dispatch_no_handler V route req kw db :
  select_handler V route (method req) = None →
  ∃ e, (e = NotAuthenticated ∨ e = PermissionDenied ∨ e = MethodNotAllowed) ∧
       dispatch V route req kw db = (handle_exception e, db).
Proof.
  intros Hsel. unfold dispatch, bind. rewrite Hsel.
  match goal with
  | |- context [check_permissions ?ps ?self db] =>
      destruct (check_permissions_cases ps self db) as [-> | ->]
  end.
  - exists MethodNotAllowed. split; [auto|]. done.
  - cbn [request]. destruct (is_authenticated req); eexists; (split; [|reflexivity]); auto.
Qed.

(** A view whose first permission class is IsAuthenticated answers an
    anonymous request 401 before any handler runs. *)
Lemma dispatch_anonymous V route m d kw db ps :
  get_permissions V route = IsAuthenticated :: ps →
  dispatch V route {| method := m; user := AnonymousUser; data := d |} kw db =
  (handle_exception NotAuthenticated, db).
Proof. intros Hps. unfold dispatch, bind. rewrite Hps. done. Qed.

(** What dispatch does to the database is what the permission check
    lets the handler do. *)
Lemma dispatch_preserves (P : DB → DB → Prop) V route req kw db :
  P db db →
  (∀ handler self,
     select_handler V route (method req) = Some handler →
     P db (handler self kw db).2) →
  P db (dispatch V route req kw db).2.
Proof.
  intros Hrefl Hhandler. unfold dispatch, bind.
  match goal with
  | |- context [check_permissions ?ps ?self db] =>
      destruct (check_permissions_cases ps self db) as [-> | ->]
  end; [|done].
  destruct (select_handler V route (method req)) as [handler|] eqn:Hsel; [|done].
  match goal with
  | |- context [handler ?self kw db] =>
      specialize (Hhandler handler self eq_refl);
      destruct (handler self kw db) as [[e|response] db']
  end; done.
Qed.

(** ** The shopping list, continued *)

Lemma sum_amounts_Permutation rows rows' :
  rows ≡ₚ rows' → sum_amounts rows = sum_amounts rows'.
Proof.
  induction 1 as [|r rows rows' _ IH|r1 r2 rows|rows1 rows2 rows3 _ IH1 _ IH2].
  - done.
  - change (ingredient_amount r + sum_amounts rows
            = ingredient_amount r + sum_amounts rows'). lia.
  - change (ingredient_amount r2 + (ingredient_amount r1 + sum_amounts rows)
            = ingredient_amount r1 + (ingredient_amount r2 + sum_amounts rows)). lia.
  - congruence.
Qed.

Lemma add_to_groups_sum r gs :
  sum_amounts (add_to_groups r gs) = ingredient_amount r + sum_amounts gs.
Proof.
  induction gs as [|g gs IH]; [done|]. cbn [add_to_groups].
  destruct (decide (same_group r g)).
  - change (ingredient_amount g + ingredient_amount r + sum_amounts gs
            = ingredient_amount r + (ingredient_amount g + sum_amounts gs)). lia.
  - change (ingredient_amount g + sum_amounts (add_to_groups r gs)
            = ingredient_amount r + (ingredient_amount g + sum_amounts gs)). lia.
Qed.

(** X1.  Grouping and ordering lose nothing: the amounts on the shopping
    list add up to the amounts of the joined rows. *)
Theorem shopping_list_conserves_amounts db pk :
  sum_amounts (shopping_list db pk) = sum_amounts (filter_values db pk).
Proof.
  rewrite (sum_amounts_Permutation _ _ (shopping_list_Permutation db pk)).
  induction (filter_values db pk) as [|r rows IH]; [done|].
  cbn [annotate_sum foldr]. fold (annotate_sum rows).
  rewrite add_to_groups_sum, IH. done.
Qed.

Lemma shopping_list_nil db pk :
  shopping_list db pk = [] ↔ filter_values db pk = [].
Proof.
  split.
  - intros Hnil. destruct (filter_values db pk) as [|r rows] eqn:E; [done|].
    assert (group_key r ∈ group_key <$> shopping_list db pk) as Hin.
    { apply shopping_list_keys. rewrite E, fmap_cons. apply list_elem_of_here. }
    rewrite Hnil in Hin. by apply elem_of_nil in Hin.
  - intros Hnil. unfold shopping_list. by rewrite Hnil.
Qed.

Lemma header_is_not_empty_cart_text (s : string) :
  (header_line ++ s)%string ≠ empty_cart_text.
Proof. intros Heq. vm_compute in Heq. discriminate Heq. Qed.

Lemma filter_values_nil_iff db pk :
  filter_values db pk = [] ↔
  ¬ ∃ iapk ia scpk sc i,
      ingredient_amounts db !! iapk = Some ia ∧
      shopping_carts db !! scpk = Some sc ∧
      jr_user sc = pk ∧ jr_target sc = ia_recipe ia ∧
      ingredients db !! ia_ingredient ia = Some i.
Proof.
  split.
  - intros Hnil (iapk & ia & scpk & sc & i & Hia & Hsc & Hu & Ht & Hi).
    assert ({| ingredient__name := i_name i;
               ingredient__measurement_unit := i_measurement_unit i;
               ingredient_amount := ia_amount ia |} ∈ filter_values db pk) as Hin.
    { apply elem_of_filter_values. by exists iapk, ia, scpk, sc, i. }
    rewrite Hnil in Hin. by apply elem_of_nil in Hin.
  - intros Hnone. destruct (filter_values db pk) as [|r rows] eqn:E; [done|].
    destruct Hnone.
    assert (r ∈ filter_values db pk) as Hin by (rewrite E; apply list_elem_of_here).
    apply elem_of_filter_values in Hin
      as (iapk & ia & scpk & sc & i & ? & ? & ? & ? & ? & _).
    by exists iapk, ia, scpk, sc, i.
Qed.

(** X2.  The body of download_shopping_cart is the empty-cart message
    exactly when the query has no row: when no recipe in the user's
    cart has an ingredient amount (of an ingredient that exists).  A
    cart that holds only recipes without ingredients is answered like
    an empty cart. *)
Theorem empty_cart_message_iff_no_ingredient pk u d kw db :
  content (dispatch RecipeViewSet download_shopping_cart_route
             {| method := GET; user := AuthUser pk u; data := d |} kw db).1
    = Text "В вашей корзине пусто" ↔
  ¬ ∃ iapk ia scpk sc i,
      ingredient_amounts db !! iapk = Some ia ∧
      shopping_carts db !! scpk = Some sc ∧
      jr_user sc = pk ∧ jr_target sc = ia_recipe ia ∧
      ingredients db !! ia_ingredient ia = Some i.
Proof.
  rewrite download_shopping_cart_response. cbn [fst HttpResponse content].
  rewrite <- filter_values_nil_iff, <- shopping_list_nil.
  destruct (decide (shopping_list db pk = [])) as [Hnil|Hne]; [done|].
  split; [|done]. intros Heq.
  apply (f_equal (λ b, match b with Text t => t | _ => EmptyString end)) in Heq.
  by apply header_is_not_empty_cart_text in Heq.
Qed.

(** X3.  download_shopping_cart reads and never writes: whatever the
    request, the database is left as it was.  An anonymous request is
    answered 401 whatever its method, and an authenticated request with
    a method other than GET is answered 405. *)
Theorem download_shopping_cart_is_read_only :
  (∀ req kw db,
     (dispatch RecipeViewSet download_shopping_cart_route req kw db).2 = db) ∧
  (∀ m d kw db,
     dispatch RecipeViewSet download_shopping_cart_route
       {| method := m; user := AnonymousUser; data := d |} kw db =
     ({| status_code := 401; content := Detail NotAuthenticated; headers := ∅ |},
      db)) ∧
  (∀ m pk u d kw db,
     m ≠ GET →
     dispatch RecipeViewSet download_shopping_cart_route
       {| method := m; user := AuthUser pk u; data := d |} kw db =
     ({| status_code := 405; content := Detail MethodNotAllowed; headers := ∅ |},
      db)).
Proof.
  split_and!.
  - intros req kw db. apply (dispatch_preserves (λ _ db', db' = db)); [done|].
    intros handler self Hsel.
    assert (handler = RecipeViewSet_download_shopping_cart) as ->.
    { destruct (method req); try done; by injection Hsel. }
    unfold RecipeViewSet_download_shopping_cart.
    by destruct (user (request self)).
  - intros m d kw db. by apply (dispatch_anonymous _ _ _ _ _ _ []).
  - intros m pk u d kw db Hm. unfold dispatch, bind. by destruct m.
Qed.

(** ** The join views, continued *)

Lemma set_objects_same k db : set_objects k (objects k db) db = db.
Proof. by destruct k, db. Qed.

Lemma set_objects_twice k t t' db :
  set_objects k t' (set_objects k t db) = set_objects k t' db.
Proof. by destruct k. Qed.

Lemma destroy_only_changes k self kw db :
  only_changes k db (destroy k self kw db).2.
Proof.
  unfold destroy, bind, getitem, as_pk, get_db, get_object_or_404, perform_destroy,
    modify_db, ret, raise.
  repeat case_match; simplify_eq; cbn [snd].
  all: try apply only_changes_refl.
  all: apply only_changes_set_objects.
Qed.

Lemma create_only_changes k self kw db :
  only_changes k db (CreateModelMixin_create k self kw db).2.
Proof.
  unfold CreateModelMixin_create, perform_create, Model_create, get_target_or_404,
    get_by_pk_or_404, is_valid_or_raise, bind, getitem, as_pk, get_db, modify_db,
    ret, raise.
  repeat case_match; simplify_eq; cbn [snd].
  all: try apply only_changes_refl.
  all: apply only_changes_set_objects.
Qed.

(** X4.  Whatever the request (its user, payload, URL arguments and any
    method but OPTIONS, which the framework answers itself), the view
    of a join model changes no table but that model's own: users,
    recipes, ingredients, ingredient amounts and the other two join
    tables are as before. *)
Theorem join_view_changes_only_its_table k m usr d kw db :
  m ≠ OPTIONS →
  only_changes k db
    (dispatch (join_view k) create_destroy_route
       {| method := m; user := usr; data := d |} kw db).2.
Proof.
  intros Hm. apply (dispatch_preserves (only_changes k)); [apply only_changes_refl|].
  intros handler self Hsel. cbn [method] in Hsel.
  assert (handler = CreateModelMixin_create k ∨ handler = destroy k) as [-> | ->].
  { destruct k, m; try done; injection Hsel as <-; auto. }
  - apply create_only_changes.
  - apply destroy_only_changes.
Qed.

(** X5.  The favorite and cart views answer an anonymous request 401,
    whatever its method, and the three join views give a method other
    than POST, DELETE and OPTIONS no handler: it is refused by the
    permission check or as method-not-allowed.  Nothing changes in
    either case. *)
Theorem join_views_refuse :
  (∀ m d kw db,
     dispatch FavoriteAPIView create_destroy_route
       {| method := m; user := AnonymousUser; data := d |} kw db =
     ({| status_code := 401; content := Detail NotAuthenticated; headers := ∅ |}, db)
     ∧
     dispatch ShoppingCartAPIView create_destroy_route
       {| method := m; user := AnonymousUser; data := d |} kw db =
     ({| status_code := 401; content := Detail NotAuthenticated; headers := ∅ |}, db))
  ∧
  (∀ k m usr d kw db,
     m ≠ POST → m ≠ DELETE → m ≠ OPTIONS →
     ∃ e, (e = NotAuthenticated ∨ e = PermissionDenied ∨ e = MethodNotAllowed) ∧
          dispatch (join_view k) create_destroy_route
            {| method := m; user := usr; data := d |} kw db =
          (handle_exception e, db)).
Proof.
  split.
  - intros m d kw db. split; by apply (dispatch_anonymous _ _ _ _ _ _ []).
  - intros k m usr d kw db Hpost Hdelete Hoptions. apply dispatch_no_handler.
    cbn [method]. by destruct k, m.
Qed.

(** X6.  A payload the serializer rejects is answered 400 with the
    serializer's errors before the target is looked up: the answer is
    the same whether or not the recipe or author exists, whatever the
    URL arguments, and nothing is created. *)
Theorem join_create_rejected_payload k pk u d kw db errors :
  let req := {| method := POST; user := AuthUser pk u; data := d |} in
  (k = Subscription →
   has_permission AuthorOrReadOnly req (Some "create"%string) = true) →
  js_run_validation (serializer_class k)
    {| request := req; kwargs := kw; action := Some "create"%string |} db d
    = inl errors →
  dispatch (join_view k) create_destroy_route req kw db =
  ({| status_code := 400; content := Data errors; headers := ∅ |}, db).
Proof.
  intros req Hperm Hinvalid.
  assert (select_handler (join_view k) create_destroy_route (method req)
          = Some (CreateModelMixin_create k)) as Hsel by (by destruct k).
  pose proof (join_permissions k req (Some "create"%string) eq_refl Hperm) as Hps.
  rewrite (dispatch_handler (join_view k) create_destroy_route req kw db
             (CreateModelMixin_create k) Hps Hsel).
  unfold CreateModelMixin_create, bind, get_db. cbn [request data req].
  change (view_action create_destroy_route (method req)) with (Some "create"%string).
  fold req. by rewrite Hinvalid.
Qed.

(** X7.  Create, then delete: when the user has no record for the target
    yet, a POST followed by a DELETE for the same target answers 201
    and then 204, and leaves the database exactly as it was before the
    POST. *)
Theorem join_create_then_delete k pk u d d' t db validated :
  let post := {| method := POST; user := AuthUser pk u; data := d |} in
  let del := {| method := DELETE; user := AuthUser pk u; data := d' |} in
  let kw : Kwargs := {[ lookup_kwarg k := VInt t ]} in
  (k = Subscription →
   has_permission AuthorOrReadOnly post (Some "create"%string) = true) →
  (k = Subscription →
   has_permission AuthorOrReadOnly del (Some "destroy"%string) = true) →
  js_run_validation (serializer_class k)
    {| request := post; kwargs := kw; action := Some "create"%string |} db d
    = inr validated →
  target_exists k db t = true →
  (∀ rpk row, objects k db !! rpk = Some row →
              ¬ (jr_user row = pk ∧ jr_target row = t)) →
  let created := dispatch (join_view k) create_destroy_route post kw db in
  let deleted := dispatch (join_view k) create_destroy_route del kw created.2 in
  status_code created.1 = 201 ∧ status_code deleted.1 = 204 ∧ deleted.2 = db.
Proof.
  intros post del kw Hpost Hdel Hvalid Hexists Hnew created deleted.
  assert (select_handler (join_view k) create_destroy_route (method post)
          = Some (CreateModelMixin_create k)) as Hsel1 by (by destruct k).
  assert (select_handler (join_view k) create_destroy_route (method del)
          = Some (destroy k)) as Hsel2 by (by destruct k).
  pose proof (join_permissions k post (Some "create"%string) eq_refl Hpost) as Hps1.
  pose proof (join_permissions k del (Some "destroy"%string) eq_refl Hdel) as Hps2.
  set (rpk := fresh (dom (objects k db))).
  set (row := {| jr_user := pk; jr_target := t |}).
  set (db1 := set_objects k (<[ rpk := row ]> (objects k db)) db).
  assert (created.2 = db1 ∧ status_code created.1 = 201) as [Hdb1 Hstatus1].
  { unfold created.
    rewrite (dispatch_handler (join_view k) create_destroy_route post kw db
               (CreateModelMixin_create k) Hps1 Hsel1).
    unfold post, kw.
    by rewrite (create_created k pk u POST d t _ _ db validated Hvalid Hexists
                  (λ _, Hnew)). }
  assert (deleted = (Response_ NoBody HTTP_204_NO_CONTENT ∅,
                     set_objects k (delete rpk (objects k db1)) db1)) as Hdeleted.
  { unfold deleted. rewrite Hdb1.
    rewrite (dispatch_handler (join_view k) create_destroy_route del kw db1
               (destroy k) Hps2 Hsel2).
    unfold del, kw.
    rewrite (destroy_found k pk u DELETE d' t _ _ db1 rpk row); [done| |done|done|].
    - unfold db1. rewrite objects_set_objects. apply lookup_insert_eq.
    - intros rpk' row' Hrow' Ht Hu. unfold db1 in Hrow'.
      rewrite objects_set_objects in Hrow'.
      apply lookup_insert_Some in Hrow' as [[<- _]|[_ Hold]]; [done|].
      by destruct (Hnew rpk' row' Hold). }
  split; [done|]. rewrite Hdeleted. split; [done|]. cbn [snd]. unfold db1.
  rewrite objects_set_objects, set_objects_twice.
  rewrite delete_insert_id by apply fresh_pk_unused. apply set_objects_same.
Qed.

(** X8.  Delete twice: once the only record of the pair is deleted, a second
    DELETE for the same target answers 404 and changes nothing more. *)
Theorem join_delete_twice k pk u d t db rpk row :
  let req := {| method := DELETE; user := AuthUser pk u; data := d |} in
  let kw : Kwargs := {[ lookup_kwarg k := VInt t ]} in
  (k = Subscription →
   has_permission AuthorOrReadOnly req (Some "destroy"%string) = true) →
  objects k db !! rpk = Some row → jr_target row = t → jr_user row = pk →
  (∀ rpk' row', objects k db !! rpk' = Some row' →
                jr_target row' = t → jr_user row' = pk → rpk' = rpk) →
  let first := dispatch (join_view k) create_destroy_route req kw db in
  let second := dispatch (join_view k) create_destroy_route req kw first.2 in
  status_code first.1 = 204 ∧
  second = ({| status_code := 404; content := Detail Http404; headers := ∅ |},
            first.2).
Proof.
  intros req kw Hperm Hrow Ht Hu Huniq first second.
  assert (select_handler (join_view k) create_destroy_route (method req)
          = Some (destroy k)) as Hsel by (by destruct k).
  pose proof (join_permissions k req (Some "destroy"%string) eq_refl Hperm) as Hps.
  assert (first = (Response_ NoBody HTTP_204_NO_CONTENT ∅,
                   set_objects k (delete rpk (objects k db)) db)) as Hfirst.
  { unfold first.
    rewrite (dispatch_handler (join_view k) create_destroy_route req kw db
               (destroy k) Hps Hsel).
    unfold req, kw.
    by rewrite (destroy_found k pk u DELETE d t _ _ db rpk row Hrow Ht Hu Huniq). }
  split; [by rewrite Hfirst|]. unfold second. rewrite Hfirst. cbn [snd].
  rewrite (dispatch_handler (join_view k) create_destroy_route req kw _
             (destroy k) Hps Hsel).
  unfold req, kw. rewrite destroy_not_found; [done|].
  intros rpk' row' Hrow' [Ht' Hu']. rewrite objects_set_objects in Hrow'.
  apply lookup_delete_Some in Hrow' as [Hne Hold].
  by destruct Hne; symmetry; apply (Huniq rpk' row').
Qed.

(** ** RecipeViewSet, continued *)

(** X10.  A recipe payload that takes the assignment of the author (a
    JSON payload) and that the write serializer rejects (seen with the
    author already set) is answered 400 with the serializer's errors,
    and nothing is persisted. *)
Theorem recipe_create_rejected_payload pk u d kw db errors :
  let req := {| method := POST; user := AuthUser pk u; data := d |} in
  let req' := {| method := POST; user := AuthUser pk u;
                 data := <[ "author"%string := VInt pk ]> d |} in
  immutable d = false →
  has_permission AuthorOrReadOnly req (Some "create"%string) = true →
  run_validation RecipeInteractSerializer req' db None false (data req')
    = inl errors →
  dispatch RecipeViewSet list_route req kw db =
  ({| status_code := 400; content := Data errors; headers := ∅ |}, db).
Proof.
  intros req req' Hmutable Hperm Hinvalid. unfold req, req' in *.
  rewrite (recipe_create_response pk u d kw db Hperm), Hmutable.
  by rewrite Hinvalid.
Qed.

Lemma Payload_insert_insert (key : string) (v w : value) (d : Payload) :
  <[ key := v ]> (<[ key := w ]> d) = <[ key := v ]> d.
Proof.
  unfold insert at 1 3, Payload_insert. cbn [items immutable]. f_equal.
  apply insert_insert_eq.
Qed.

(** X11.  The author a payload names plays no part in recipe creation: two
    POSTs by the same user that differ only in the payload's author
    are answered alike and leave the same database. *)
Theorem recipe_create_ignores_payload_author pk u d a kw db :
  let req := {| method := POST; user := AuthUser pk u; data := d |} in
  let req_a := {| method := POST; user := AuthUser pk u;
                  data := <[ "author"%string := a ]> d |} in
  has_permission AuthorOrReadOnly req (Some "create"%string) = true →
  has_permission AuthorOrReadOnly req_a (Some "create"%string) = true →
  dispatch RecipeViewSet list_route req_a kw db =
  dispatch RecipeViewSet list_route req kw db.
Proof.
  intros req req_a Hperm Hperm_a. unfold req, req_a in *.
  rewrite (recipe_create_response pk u d kw db Hperm).
  rewrite (recipe_create_response pk u _ kw db Hperm_a).
  rewrite Payload_insert_insert. done.
Qed.

Lemma get_object_granted {Row} (table : DB → gmap Z Row) as_obj p self db pk row :
  kwargs self !! "pk"%string = Some (VInt pk) →
  table db !! pk = Some row →
  has_object_permission p (request self) (as_obj pk row) = true →
  get_object table as_obj [p] self db = (inr (pk, row), db).
Proof.
  intros Hkw Hrow Hgranted. unfold get_object, bind, get_db, get_by_pk_or_404.
  rewrite Hkw, Hrow. cbn [ret fst snd check_object_permissions]. by rewrite Hgranted.
Qed.

Lemma get_serializer_class_write self :
  action self ≠ Some "list"%string → action self ≠ Some "retrieve"%string →
  RecipeViewSet_get_serializer_class self = RecipeInteractSerializer.
Proof.
  intros Hlist Hretrieve. unfold RecipeViewSet_get_serializer_class.
  rewrite decide_False; [done|]. by intros [?|?].
Qed.

(** X12.  A PATCH on a recipe that the permission class allows is validated
    as a partial update by the write serializer, and its 200 answer is
    the write serializer's representation of the updated recipe (not
    the read representation that creation answers with). *)
Theorem recipe_patch_answers_with_write_representation
    pk u d rpk r db validated instance' db' :
  let req := {| method := PATCH; user := AuthUser pk u; data := d |} in
  has_permission AuthorOrReadOnly req (Some "partial_update"%string) = true →
  recipes db !! rpk = Some r →
  has_object_permission AuthorOrReadOnly req (RecipeObj rpk r) = true →
  run_validation RecipeInteractSerializer req db (Some (rpk, r)) true d
    = inr validated →
  update RecipeInteractSerializer (rpk, r) validated db = (inr instance', db') →
  dispatch RecipeViewSet detail_route req {[ "pk"%string := VInt rpk ]} db =
  ({| status_code := 200;
      content := Data (to_representation RecipeInteractSerializer req db' instance');
      headers := ∅ |}, db').
Proof.
  intros req Hperm Hrow Hobj Hvalid Hupdate.
  rewrite (dispatch_handler RecipeViewSet detail_route req _ db
             (UpdateModelMixin_partial_update RecipeViewSet_update));
    [|by repeat constructor|done].
  unfold UpdateModelMixin_partial_update, RecipeViewSet_update,
    UpdateModelMixin_update, bind, get_db.
  rewrite get_serializer_class_write by done.
  rewrite (get_object_granted recipes RecipeObj _ _ db rpk r);
    [|apply lookup_singleton_eq|done|done].
  rewrite lookup_insert_eq. unfold req in *.
  cbn [default truthy request data from_option id]. rewrite Hvalid.
  cbn [is_valid_or_raise ret]. by rewrite Hupdate.
Qed.

(** ** UserViewSet, continued *)

(** X14.  [me] answers GET (and HEAD, bound to the same method) with what
    the user serializer, built on the requesting user alone and given
    no context, produces: 200 with its representation of the user the
    request carries, the same whatever the method, payload and URL
    arguments, or the answer to the exception a field raises for want
    of a request in the context; nothing is changed.  An anonymous
    request is answered 401, and any method other than GET, HEAD and
    OPTIONS 405. *)
Theorem me_shows_the_requesting_user :
  (∀ m pk u d kw db,
     m = GET ∨ m = HEAD →
     dispatch UserViewSet me_route
       {| method := m; user := AuthUser pk u; data := d |} kw db =
     (match data_without_context UserSerializer db (pk, u) with
      | inr body => {| status_code := 200; content := Data body; headers := ∅ |}
      | inl e => handle_exception e
      end, db)) ∧
  (∀ m d kw db,
     dispatch UserViewSet me_route
       {| method := m; user := AnonymousUser; data := d |} kw db =
     ({| status_code := 401; content := Detail NotAuthenticated; headers := ∅ |},
      db)) ∧
  (∀ m pk u d kw db,
     m ≠ GET → m ≠ HEAD → m ≠ OPTIONS →
     dispatch UserViewSet me_route
       {| method := m; user := AuthUser pk u; data := d |} kw db =
     ({| status_code := 405; content := Detail MethodNotAllowed; headers := ∅ |},
      db)).
Proof.
  split_and!.
  - intros m pk u d kw db [-> | ->].
    + rewrite (dispatch_handler UserViewSet me_route _ kw db UserViewSet_me);
        [|by repeat constructor|done].
      unfold UserViewSet_me, bind, get_db. cbn [request user].
      by destruct (data_without_context UserSerializer db (pk, u)).
    + rewrite (dispatch_handler UserViewSet me_route _ kw db UserViewSet_me);
        [|by repeat constructor|done].
      unfold UserViewSet_me, bind, get_db. cbn [request user].
      by destruct (data_without_context UserSerializer db (pk, u)).
  - intros m d kw db. by apply (dispatch_anonymous _ _ _ _ _ _ []).
  - intros m pk u d kw db Hget Hhead Hoptions. unfold dispatch, bind. by destruct m.
Qed.

(** X15.  set_password answers an anonymous request 401 whatever its method
    and payload, and an authenticated request with a method other than
    POST and OPTIONS 405; no credential is changed in either case. *)
Theorem set_password_refuses :
  (∀ m d kw db,
     dispatch UserViewSet set_password_route
       {| method := m; user := AnonymousUser; data := d |} kw db =
     ({| status_code := 401; content := Detail NotAuthenticated; headers := ∅ |},
      db)) ∧
  (∀ m pk u d kw db,
     m ≠ POST → m ≠ OPTIONS →
     dispatch UserViewSet set_password_route
       {| method := m; user := AuthUser pk u; data := d |} kw db =
     ({| status_code := 405; content := Detail MethodNotAllowed; headers := ∅ |},
      db)).
Proof.
  split.
  - intros m d kw db. by apply (dispatch_anonymous _ _ _ _ _ _ []).
  - intros m pk u d kw db Hpost Hoptions. unfold dispatch, bind. by destruct m.
Qed.

(** X16.  After a successful change the new password is the current one: the
    stored row of the user carries a credential that the next
    set_password accepts as [current_password], provided the hasher
    recognises what it encoded. *)
Theorem set_password_then_new_is_current pk u (d1 d2 : Payload) kw db c n n' :
  (∀ raw, check_password raw (make_password raw) = true) →
  PasswordSerializer d1 = inr {| current_password := c; new_password := n |} →
  check_password c (u_password u) = true →
  PasswordSerializer d2 = inr {| current_password := n; new_password := n' |} →
  let first :=
    dispatch UserViewSet set_password_route
      {| method := POST; user := AuthUser pk u; data := d1 |} kw db in
  ∃ u', users first.2 !! pk = Some u' ∧
        status_code
          (dispatch UserViewSet set_password_route
             {| method := POST; user := AuthUser pk u'; data := d2 |} kw first.2).1
        = 204.
Proof.
  intros Hhasher Hd1 Hc Hd2 first. unfold first.
  rewrite set_password_response, Hd1. cbn [current_password new_password].
  rewrite Hc. cbn [snd users set_users].
  exists (set_password n u). split; [apply lookup_insert_eq|].
  rewrite set_password_response, Hd2. cbn [current_password new_password].
  unfold set_password at 1. cbn [u_password]. by rewrite Hhasher.
Qed.

(** ** SubscriptionAPIView *)

(** Who is on the list: the users some subscription of the request's
    user points to. *)
Lemma get_queryset_spec me me_row m d kw a db :
  ∃ l,
    SubscriptionAPIView_get_queryset
      {| request := {| method := m; user := AuthUser me me_row; data := d |};
         kwargs := kw; action := a |} db = (inr l, db) ∧
    ∀ pk u, (pk, u) ∈ l ↔
            users db !! pk = Some u ∧
            ∃ spk s, subscriptions db !! spk = Some s ∧
                     jr_target s = pk ∧ jr_user s = me.
Proof.
  eexists. split; [reflexivity|]. intros pk u.
  rewrite list_elem_of_bind. split.
  - intros ([pk' u'] & Hin & Hu%elem_of_map_to_list).
    apply list_elem_of_bind in Hin as (s & Hin & Hs). cbn [fst] in Hs.
    unfold following in Hs. apply list_elem_of_filter in Hs as [Ht Hs].
    apply list_elem_of_fmap in Hs as ([spk s'] & -> & Hs%elem_of_map_to_list).
    case_decide as Hme; [|by apply elem_of_nil in Hin].
    apply list_elem_of_singleton in Hin as [= -> ->]. split; [done|].
    by exists spk, s'.
  - intros (Hu & spk & s & Hs & Ht & Hme). exists (pk, u). split.
    + apply list_elem_of_bind. exists s. split.
      * rewrite decide_True by done. apply list_elem_of_here.
      * unfold following. apply list_elem_of_filter. split; [done|].
        apply list_elem_of_fmap. exists (spk, s). split; [done|].
        by apply elem_of_map_to_list.
    + by apply elem_of_map_to_list.
Qed.

(** X17.  Subscribe, then list: after a POST on the subscribe view is
    answered 201, the followed user is in the queryset of the
    subscription list of the follower. *)
Theorem subscribe_then_listed pk u d t author kw' db validated :
  let req := {| method := POST; user := AuthUser pk u; data := d |} in
  let kw : Kwargs := {[ "user_id"%string := VInt t ]} in
  has_permission AuthorOrReadOnly req (Some "create"%string) = true →
  js_run_validation SubscribeSerializer
    {| request := req; kwargs := kw; action := Some "create"%string |} db d
    = inr validated →
  users db !! t = Some author →
  (unique_together Subscription = true →
   ∀ rpk row, subscriptions db !! rpk = Some row →
              ¬ (jr_user row = pk ∧ jr_target row = t)) →
  let created := dispatch SubscribeAPIView create_destroy_route req kw db in
  status_code created.1 = 201 ∧
  ∃ l,
    SubscriptionAPIView_get_queryset
      {| request := {| method := GET; user := AuthUser pk u; data := ∅ |};
         kwargs := kw'; action := None |} created.2 = (inr l, created.2) ∧
    (t, author) ∈ l.
Proof.
  intros req kw Hperm Hvalid Hauthor Hnew created.
  assert (target_exists Subscription db t = true) as Hexists.
  { unfold target_exists. rewrite bool_decide_true; [done|]. by eexists. }
  assert (created =
          (let row := {| jr_user := pk; jr_target := t |} in
           let rpk := fresh (dom (subscriptions db)) in
           let db1 := set_objects Subscription (<[ rpk := row ]> (subscriptions db)) db in
           let repr := js_to_representation SubscribeSerializer
                         {| request := req; kwargs := kw;
                            action := Some "create"%string |} db1 (rpk, row) in
           (Response_ (Data repr) HTTP_201_CREATED (get_success_headers repr), db1)))
    as Hcreated.
  { unfold created.
    rewrite (dispatch_handler SubscribeAPIView create_destroy_route req kw db
               (CreateModelMixin_create Subscription));
      [|by repeat constructor|done].
    unfold req, kw.
    by rewrite (create_created Subscription pk u POST d t _ _ db validated
                  Hvalid Hexists Hnew). }
  rewrite Hcreated. cbn zeta. cbn [fst snd]. split; [done|].
  destruct (get_queryset_spec pk u GET ∅ kw' None
              (set_objects Subscription
                 (<[ fresh (dom (subscriptions db)) :=
                       {| jr_user := pk; jr_target := t |} ]> (subscriptions db)) db))
    as (l & Hl & Hin).
  exists l. split; [done|]. apply Hin. split; [done|].
  exists (fresh (dom (subscriptions db))), {| jr_user := pk; jr_target := t |}.
  split; [|done]. cbn [subscriptions set_objects]. apply lookup_insert_eq.
Qed.

(** X18.  Unsubscribe, then list: after a DELETE on the subscribe view is
    answered 204 (the subscription being the only one of the pair), the
    user is no longer in the follower's queryset. *)
Theorem unsubscribe_then_not_listed pk u d t kw' db rpk row :
  let req := {| method := DELETE; user := AuthUser pk u; data := d |} in
  let kw : Kwargs := {[ "user_id"%string := VInt t ]} in
  has_permission AuthorOrReadOnly req (Some "destroy"%string) = true →
  subscriptions db !! rpk = Some row → jr_target row = t → jr_user row = pk →
  (∀ rpk' row', subscriptions db !! rpk' = Some row' →
                jr_target row' = t → jr_user row' = pk → rpk' = rpk) →
  let deleted := dispatch SubscribeAPIView create_destroy_route req kw db in
  status_code deleted.1 = 204 ∧
  ∃ l,
    SubscriptionAPIView_get_queryset
      {| request := {| method := GET; user := AuthUser pk u; data := ∅ |};
         kwargs := kw'; action := None |} deleted.2 = (inr l, deleted.2) ∧
    ∀ author, (t, author) ∉ l.
Proof.
  intros req kw Hperm Hrow Ht Hu Huniq deleted.
  assert (deleted = (Response_ NoBody HTTP_204_NO_CONTENT ∅,
                     set_objects Subscription (delete rpk (subscriptions db)) db))
    as Hdeleted.
  { unfold deleted.
    rewrite (dispatch_handler SubscribeAPIView create_destroy_route req kw db
               (destroy Subscription)); [|by repeat constructor|done].
    unfold req, kw.
    by rewrite (destroy_found Subscription pk u DELETE d t _ _ db rpk row
                  Hrow Ht Hu Huniq). }
  rewrite Hdeleted. cbn [fst snd]. split; [done|].
  destruct (get_queryset_spec pk u GET ∅ kw' None
              (set_objects Subscription (delete rpk (subscriptions db)) db))
    as (l & Hl & Hin).
  exists l. split; [done|]. intros author (_ & spk & s & Hs & Hts & Hus)%Hin.
  cbn [subscriptions set_objects] in Hs.
  apply lookup_delete_Some in Hs as [Hne Hs].
  by destruct Hne; symmetry; apply (Huniq spk s).
Qed.

(** ** TagViewSet and IngredientViewSet *)

(** X19.  The tag and ingredient views are read-only: on the collection URL
    and on the item URL a POST, PUT, PATCH, DELETE or TRACE has no
    handler, whatever the default permission classes; it is refused by
    the permission check or as method-not-allowed, and nothing
    changes. *)
Theorem tag_and_ingredient_views_are_read_only ps route m usr d kw db :
  route = list_route ∨ route = detail_route →
  is_safe m = false →
  (∃ e, (e = NotAuthenticated ∨ e = PermissionDenied ∨ e = MethodNotAllowed) ∧
        dispatch (TagViewSet ps) route
          {| method := m; user := usr; data := d |} kw db =
        (handle_exception e, db)) ∧
  (∃ e, (e = NotAuthenticated ∨ e = PermissionDenied ∨ e = MethodNotAllowed) ∧
        dispatch (IngredientViewSet ps) route
          {| method := m; user := usr; data := d |} kw db =
        (handle_exception e, db)).
Proof.
  intros Hroute Hm.
  split; apply dispatch_no_handler; cbn [method];
    destruct Hroute as [-> | ->]; by destruct m.
Qed.

End further_properties.

(** * The views at work

    The theorems above at concrete requests, over the reference
    implementations and the sample database. *)

#[local] Existing Instances spec_permissions plain_serializers plain_models
  plain_platform.

Lemma download_shopping_cart_eggs :
  shopping_list sample_db 1 ≠ [] ∧
  content (dispatch RecipeViewSet download_shopping_cart_route
             (as_alice GET ∅) ∅ sample_db).1 =
  Text ("Список покупок:" ++ LF ++ "eggs: 5 pcs" ++ LF ++ "flour: 200 g" ++ LF).
Proof.
  assert (shopping_list sample_db 1 ≠ []) as Hne by (vm_compute; discriminate).
  split; [exact Hne|].
  pose proof (download_shopping_cart_aggregates 1 alice ∅ ∅ sample_db)
    as (_ & _ & _ & _ & Htext).
  specialize (Htext Hne). vm_compute in Htext. vm_compute. exact Htext.
Defined.

Lemma empty_db_no_cart pk scpk sc :
  shopping_carts empty_db !! scpk = Some sc → jr_user sc ≠ pk.
Proof. cbn [shopping_carts empty_db]. by rewrite lookup_empty. Qed.

Lemma sample_db_favorites rpk row :
  objects Favorite sample_db !! rpk = Some row →
  rpk = 1 ∧ row = {| jr_user := 1; jr_target := 2 |}.
Proof.
  cbn [objects favorites sample_db]. intros [-> <-]%lookup_singleton_Some. done.
Qed.

Lemma download_shopping_cart_empty_and_full :
  content (dispatch RecipeViewSet download_shopping_cart_route
             (as_alice GET ∅) ∅ empty_db).1 = Text "В вашей корзине пусто" ∧
  status_code (dispatch RecipeViewSet download_shopping_cart_route
                 (as_alice GET ∅) ∅ sample_db).1 = 200 ∧
  headers (dispatch RecipeViewSet download_shopping_cart_route
             (as_alice GET ∅) ∅ sample_db).1 !! "Content-Type"%string
    = Some "text/plain"%string.
Proof.
  split.
  - apply (download_shopping_cart_body_and_headers 1 alice ∅ ∅ empty_db).
    apply empty_db_no_cart.
  - assert (∃ scpk sc, shopping_carts sample_db !! scpk = Some sc ∧ jr_user sc = 1)
      as Hcart by (by exists 1, {| jr_user := 1; jr_target := 1 |}).
    destruct (download_shopping_cart_body_and_headers 1 alice ∅ ∅ sample_db)
      as [_ Hfull].
    destruct (Hfull Hcart) as (Hstatus & Htype & _). by split.
Defined.

Lemma empty_cart_attachment_example :
  (∀ scpk sc, shopping_carts empty_db !! scpk = Some sc → jr_user sc ≠ 1) ∧
  status_code (dispatch RecipeViewSet download_shopping_cart_route
                 (as_alice GET ∅) ∅ empty_db).1 = 200 ∧
  headers (dispatch RecipeViewSet download_shopping_cart_route
             (as_alice GET ∅) ∅ empty_db).1 !! "Content-Disposition"%string
    = Some ("attachment; filename=" ++ DQUOTE ++ "shopping_list.txt" ++ DQUOTE)%string.
Proof.
  assert (∀ scpk sc, shopping_carts empty_db !! scpk = Some sc → jr_user sc ≠ 1)
    as Hempty by apply empty_db_no_cart.
  split; [exact Hempty|].
  destruct (empty_cart_is_served_as_attachment 1 alice ∅ ∅ empty_db Hempty)
    as (Hstatus & _ & _ & Hdisposition).
  by split.
Defined.

(** Alice removes recipe 2 from her favorites: the row is gone, her
    cart is as it was.  Recipe 1 was never among her favorites. *)
Lemma favorite_delete_example :
  favorites sample_db !! 1 = Some {| jr_user := 1; jr_target := 2 |} ∧
  (dispatch FavoriteAPIView create_destroy_route (as_alice DELETE ∅)
     {[ "recipe_id"%string := VInt 2 ]} sample_db).1 =
  {| status_code := 204; content := NoBody; headers := ∅ |} ∧
  favorites
    (dispatch FavoriteAPIView create_destroy_route (as_alice DELETE ∅)
       {[ "recipe_id"%string := VInt 2 ]} sample_db).2 !! 1 = None ∧
  shopping_carts
    (dispatch FavoriteAPIView create_destroy_route (as_alice DELETE ∅)
       {[ "recipe_id"%string := VInt 2 ]} sample_db).2 = shopping_carts sample_db ∧
  dispatch FavoriteAPIView create_destroy_route (as_alice DELETE ∅)
    {[ "recipe_id"%string := VInt 1 ]} sample_db =
  ({| status_code := 404; content := Detail Http404; headers := ∅ |}, sample_db).
Proof.
  split; [done|].
  destruct (join_record_delete Favorite 1 alice (json ∅) 2 sample_db)
    as [_ Hfound]; [done|].
  destruct (Hfound 1 {| jr_user := 1; jr_target := 2 |})
    as (Hresponse & Hgone & _ & Hframe); [done|done|done| |].
  { intros rpk' row' Hrow' _ _. by apply sample_db_favorites in Hrow' as [-> _]. }
  split; [exact (f_equal fst Hresponse)|]. split; [exact Hgone|].
  split; [exact (proj2 (proj2 (proj2 (proj2 Hframe))) ShoppingCart ltac:(done))|].
  destruct (join_record_delete Favorite 1 alice (json ∅) 1 sample_db)
    as [Hnone _]; [done|].
  apply Hnone. intros rpk row Hrow [Ht _].
  apply sample_db_favorites in Hrow as [_ ->]. done.
Defined.

(** Alice adds recipe 1 to her favorites: the new row is in the table,
    next to the one that was there.  There is no recipe 7. *)
Lemma favorite_create_example :
  (∃ rpk,
     favorites sample_db !! rpk = None ∧
     (dispatch FavoriteAPIView create_destroy_route (as_alice POST ∅)
        {[ "recipe_id"%string := VInt 1 ]} sample_db).1 =
     {| status_code := 201; content := Data {[ "id"%string := VInt rpk ]};
        headers := ∅ |} ∧
     favorites
       (dispatch FavoriteAPIView create_destroy_route (as_alice POST ∅)
          {[ "recipe_id"%string := VInt 1 ]} sample_db).2 !! rpk
     = Some {| jr_user := 1; jr_target := 1 |} ∧
     favorites
       (dispatch FavoriteAPIView create_destroy_route (as_alice POST ∅)
          {[ "recipe_id"%string := VInt 1 ]} sample_db).2 !! 1
     = Some {| jr_user := 1; jr_target := 2 |}) ∧
  dispatch FavoriteAPIView create_destroy_route (as_alice POST ∅)
    {[ "recipe_id"%string := VInt 7 ]} sample_db =
  ({| status_code := 404; content := Detail Http404; headers := ∅ |}, sample_db).
Proof.
  split.
  - destruct (join_record_create Favorite 1 alice (json ∅) 1 sample_db ∅)
      as [_ Hcreated]; [done|done|].
    destruct Hcreated as (rpk & Hfresh & Hresponse & Hrow & Hothers & _); [done| |].
    { intros _ rpk' row' Hrow' [_ Ht].
      apply sample_db_favorites in Hrow' as [_ ->]. done. }
    exists rpk. split; [exact Hfresh|].
    split; [exact (f_equal fst Hresponse)|]. split; [exact Hrow|].
    assert (1 ≠ rpk) as Hne by (by intros <-).
    exact (Hothers 1 Hne).
  - destruct (join_record_create Favorite 1 alice (json ∅) 7 sample_db ∅)
      as [Hmissing _]; [done|done|].
    by apply Hmissing.
Defined.

(** PUT on /users/1/ by user 1. *)
Example user_put_example :
  (dispatch UserViewSet detail_route (as_alice PUT ∅)
     {[ "pk"%string := VInt 1 ]} sample_db).1 =
  {| status_code := 500; content := Detail (KeyError "partial"); headers := ∅ |}.
Proof. vm_compute. reflexivity. Qed.

(** Alice changes her password, first with a wrong current password. *)
Lemma set_password_example :
  dispatch UserViewSet set_password_route
    (as_alice POST {[ "current_password"%string := VStr "guess";
                      "new_password"%string := VStr "n3w" ]}) ∅ sample_db =
  ({| status_code := 400;
      content := Data {[ "current_password"%string := VStr "Неверный пароль" ]};
      headers := ∅ |}, sample_db) ∧
  ∃ db',
    dispatch UserViewSet set_password_route
      (as_alice POST {[ "current_password"%string := VStr "secret";
                        "new_password"%string := VStr "n3w" ]}) ∅ sample_db =
    ({| status_code := 204; content := NoBody; headers := ∅ |}, db') ∧
    users db' !! 1 = Some {| u_password := "plain$n3w"; u_profile := ∅ |}.
Proof.
  split.
  - apply (set_password_checks_current_password 1 alice _ ∅ sample_db
             {| current_password := "guess"; new_password := "n3w" |}); done.
  - destruct (set_password_checks_current_password 1 alice
                (json {[ "current_password"%string := VStr "secret";
                         "new_password"%string := VStr "n3w" ]}) ∅ sample_db
                {| current_password := "secret"; new_password := "n3w" |})
      as [_ Hok]; [done|].
    destruct Hok as (db' & Hresponse & Hstored & _); [done|]. by exists db'.
Defined.

Lemma set_password_failure_example :
  (dispatch UserViewSet set_password_route
     (as_alice POST {[ "current_password"%string := VStr "guess";
                       "new_password"%string := VStr "n3w" ]}) ∅ sample_db).2
  = sample_db ∧
  (dispatch UserViewSet set_password_route (as_alice POST ∅) ∅ sample_db).2
  = sample_db.
Proof.
  split.
  - destruct (set_password_failure_keeps_credential 1 alice
                (json {[ "current_password"%string := VStr "guess";
                         "new_password"%string := VStr "n3w" ]}) ∅ sample_db)
      as (_ & Hmismatch & _).
    by apply (Hmismatch {| current_password := "guess"; new_password := "n3w" |}).
  - destruct (set_password_failure_keeps_credential 1 alice ∅ ∅ sample_db)
      as (Hinvalid & _ & _).
    by apply (Hinvalid {[ "current_password"%string := VStr "required" ]}).
Defined.

Lemma plain_recipe_serializer_author_is_written :
  author_is_written plain_recipe_serializer.
Proof.
  intros request db d validated obj db' a Hvalid Hcreate Hauthor.
  cbn in Hvalid. rewrite Hauthor in Hvalid. injection Hvalid as <-.
  cbn in Hcreate. rewrite Hauthor in Hcreate.
  unfold bind, get_db, modify_db, ret in Hcreate. injection Hcreate as <- <-.
  split; [done|]. cbn. apply lookup_insert_eq.
Qed.

(** Alice posts a recipe that names Bob as its author. *)
Lemma recipe_create_example :
  ∃ rpk db',
    (dispatch RecipeViewSet list_route
       (as_alice POST {[ "author"%string := VInt 2 ]}) ∅ sample_db).2 = db' ∧
    recipes db' !! rpk = Some {| r_author := 1; r_fields := ∅ |} ∧
    status_code (dispatch RecipeViewSet list_route
       (as_alice POST {[ "author"%string := VInt 2 ]}) ∅ sample_db).1 = 201.
Proof.
  pose (d := <[ "author"%string := VInt 1 ]>
               ({[ "author"%string := VInt 2 ]} : dict)).
  pose (rpk := fresh (dom (recipes sample_db))).
  pose (r := {| r_author := 1; r_fields := delete "author"%string d |}).
  pose (db' := set_recipes (<[ rpk := r ]> (recipes sample_db)) sample_db).
  destruct (recipe_create_sets_author 1 alice
              (json {[ "author"%string := VInt 2 ]}) ∅ sample_db d (rpk, r) db')
    as (_ & Hrow & Hauthor & Hresponse);
    [done|done|exact plain_recipe_serializer_author_is_written|done|done|].
  exists rpk, db'. unfold as_alice. rewrite Hresponse. split; [done|].
  split; [|done]. cbn [fst snd] in Hrow. rewrite Hrow. vm_compute. reflexivity.
Defined.

(** Alice posts the same recipe as a form. *)
Example recipe_create_form_example :
  dispatch RecipeViewSet list_route
    {| method := POST; user := AuthUser 1 alice;
       data := form {[ "author"%string := VInt 2 ]} |} ∅ sample_db =
  ({| status_code := 500; content := Detail AttributeError; headers := ∅ |},
   sample_db).
Proof. vm_compute. reflexivity. Qed.

(** Alice tries to change, and to delete, Bob's recipe. *)
Lemma recipe_not_author_example :
  dispatch RecipeViewSet detail_route (as_alice PATCH ∅)
    {[ "pk"%string := VInt 2 ]} sample_db =
  ({| status_code := 403; content := Detail PermissionDenied; headers := ∅ |},
   sample_db) ∧
  dispatch RecipeViewSet detail_route (as_alice DELETE ∅)
    {[ "pk"%string := VInt 2 ]} sample_db =
  ({| status_code := 403; content := Detail PermissionDenied; headers := ∅ |},
   sample_db).
Proof.
  destruct (@recipe_methods_and_author_only plain_serializers plain_models
              plain_platform) as (_ & _ & Hdenied).
  split.
  - by apply (Hdenied PATCH 1 alice ∅ 2 {| r_author := 2; r_fields := ∅ |});
      [left| |].
  - by apply (Hdenied DELETE 1 alice ∅ 2 {| r_author := 2; r_fields := ∅ |});
      [right| |].
Defined.

(** ** Further examples *)

(** Bob's cart holds one recipe, which has no ingredients: he is told
    his cart is empty. *)
Lemma cart_without_ingredients_example :
  shopping_carts crowded_db !! 3 = Some {| jr_user := 2; jr_target := 3 |} ∧
  content (dispatch RecipeViewSet download_shopping_cart_route
             (as_bob GET ∅) ∅ crowded_db).1 = Text "В вашей корзине пусто".
Proof.
  split; [done|].
  apply (empty_cart_message_iff_no_ingredient 2 bob ∅ ∅ crowded_db).
  apply filter_values_nil_iff. vm_compute. reflexivity.
Defined.

Lemma download_post_example :
  dispatch RecipeViewSet download_shopping_cart_route (as_alice POST ∅) ∅ sample_db =
  ({| status_code := 405; content := Detail MethodNotAllowed; headers := ∅ |},
   sample_db).
Proof.
  destruct download_shopping_cart_is_read_only as (_ & _ & Hmethod).
  by apply (Hmethod POST 1 alice ∅ ∅ sample_db).
Defined.

Lemma favorite_delete_frame_example :
  only_changes Favorite sample_db
    (dispatch FavoriteAPIView create_destroy_route (as_alice DELETE ∅)
       {[ "recipe_id"%string := VInt 2 ]} sample_db).2.
Proof.
  by apply (join_view_changes_only_its_table Favorite DELETE (AuthUser 1 alice)).
Defined.

Lemma favorite_get_example :
  ∃ e, (e = NotAuthenticated ∨ e = PermissionDenied ∨ e = MethodNotAllowed) ∧
       dispatch FavoriteAPIView create_destroy_route (as_alice GET ∅)
         {[ "recipe_id"%string := VInt 2 ]} sample_db = (handle_exception e, sample_db).
Proof.
  destruct join_views_refuse as [_ Hmethod].
  by apply (Hmethod Favorite GET (AuthUser 1 alice)).
Defined.

(** Alice adds recipe 1 to her favorites and removes it again. *)
Lemma favorite_round_trip_example :
  (dispatch FavoriteAPIView create_destroy_route (as_alice DELETE ∅)
     {[ "recipe_id"%string := VInt 1 ]}
     (dispatch FavoriteAPIView create_destroy_route (as_alice POST ∅)
        {[ "recipe_id"%string := VInt 1 ]} sample_db).2).2 = sample_db.
Proof.
  destruct (join_create_then_delete Favorite 1 alice ∅ ∅ 1 sample_db ∅)
    as (_ & _ & Hback); [done|done|done|done| |exact Hback].
  intros rpk row Hrow [_ Ht]. apply sample_db_favorites in Hrow as [_ ->]. done.
Defined.

(** Alice removes recipe 2 from her favorites twice. *)
Lemma favorite_delete_twice_example :
  status_code
    (dispatch FavoriteAPIView create_destroy_route (as_alice DELETE ∅)
       {[ "recipe_id"%string := VInt 2 ]}
       (dispatch FavoriteAPIView create_destroy_route (as_alice DELETE ∅)
          {[ "recipe_id"%string := VInt 2 ]} sample_db).2).1 = 404.
Proof.
  destruct (join_delete_twice Favorite 1 alice ∅ 2 sample_db 1
              {| jr_user := 1; jr_target := 2 |}) as [_ Hsecond];
    [done|done|done|done| |].
  - intros rpk' row' Hrow' _ _. by apply sample_db_favorites in Hrow' as [-> _].
  - exact (f_equal (λ result, status_code result.1) Hsecond).
Defined.

(** With recipe 2 twice among her favorites, Alice cannot remove it. *)
Lemma favorite_delete_duplicates_example :
  dispatch FavoriteAPIView create_destroy_route (as_alice DELETE ∅)
    {[ "recipe_id"%string := VInt 2 ]} crowded_db =
  ({| status_code := 500; content := Detail MultipleObjectsReturned;
      headers := ∅ |}, crowded_db).
Proof.
  by apply (join_record_delete_duplicates Favorite 1 alice ∅ 2 crowded_db
              1 {| jr_user := 1; jr_target := 2 |}
              2 {| jr_user := 1; jr_target := 2 |}).
Defined.

(** Alice patches her own user. *)
Lemma user_patch_example :
  dispatch UserViewSet detail_route (as_alice PATCH ∅)
    {[ "pk"%string := VInt 1 ]} sample_db =
  ({| status_code := 200; content := Data {[ "id"%string := VInt 1 ]};
      headers := ∅ |}, sample_db).
Proof.
  unfold as_alice. rewrite (user_patch_proceeds (AuthUser 1 alice) (json ∅) 1 sample_db);
    [|done].
  vm_compute. reflexivity.
Defined.

(** Alice posts a recipe with and without an author in the payload. *)
Lemma recipe_create_author_ignored_example :
  dispatch RecipeViewSet list_route
    (as_alice POST (<[ "author"%string := VInt 2 ]> ∅)) ∅ sample_db =
  dispatch RecipeViewSet list_route (as_alice POST ∅) ∅ sample_db.
Proof.
  pose proof (recipe_create_ignores_payload_author 1 alice (json ∅) (VInt 2) ∅
                sample_db) as Hsame.
  cbn zeta in Hsame. by specialize (Hsame eq_refl eq_refl).
Defined.

(** Alice renames her recipe. *)
Lemma recipe_patch_example :
  status_code
    (dispatch RecipeViewSet detail_route
       (as_alice PATCH {[ "author"%string := VInt 1; "name"%string := VStr "pie" ]})
       {[ "pk"%string := VInt 1 ]} sample_db).1 = 200.
Proof.
  pose (d := ({[ "author"%string := VInt 1; "name"%string := VStr "pie" ]} : dict)).
  pose (r := {| r_author := 1; r_fields := delete "author"%string d ∪ ∅ |}).
  pose (db' := set_recipes (<[ 1 := r ]> (recipes sample_db)) sample_db).
  assert (dispatch RecipeViewSet detail_route (as_alice PATCH d)
            {[ "pk"%string := VInt 1 ]} sample_db =
          ({| status_code := 200;
              content := Data (to_representation RecipeInteractSerializer
                                 (as_alice PATCH d) db' (1, r));
              headers := ∅ |}, db')) as Hpatched.
  { by apply (recipe_patch_answers_with_write_representation 1 alice (json d) 1
                {| r_author := 1; r_fields := ∅ |} sample_db d (1, r) db'). }
  exact (f_equal (λ result, status_code result.1) Hpatched).
Defined.

(** Alice asks who she is, with and without a payload. *)
Lemma me_example :
  dispatch UserViewSet me_route (as_alice GET ∅) ∅ sample_db =
  ({| status_code := 200; content := Data {[ "id"%string := VInt 1 ]};
      headers := ∅ |}, sample_db) ∧
  dispatch UserViewSet me_route
    (as_alice HEAD {[ "id"%string := VInt 2 ]}) ∅ sample_db =
  dispatch UserViewSet me_route (as_alice GET ∅) ∅ sample_db.
Proof.
  destruct me_shows_the_requesting_user as (Hme & _ & _).
  pose proof (Hme GET 1 alice (json ∅) ∅ sample_db (or_introl eq_refl)) as Hget.
  pose proof (Hme HEAD 1 alice (json {[ "id"%string := VInt 2 ]}) ∅ sample_db
                (or_intror eq_refl)) as Hhead.
  split; [exact Hget|]. exact (eq_trans Hhead (eq_sym Hget)).
Defined.

Lemma set_password_anonymous_example :
  dispatch UserViewSet set_password_route
    (as_anonymous POST {[ "current_password"%string := VStr "secret";
                          "new_password"%string := VStr "n3w" ]}) ∅ sample_db =
  ({| status_code := 401; content := Detail NotAuthenticated; headers := ∅ |},
   sample_db) ∧
  dispatch UserViewSet set_password_route (as_alice GET ∅) ∅ sample_db =
  ({| status_code := 405; content := Detail MethodNotAllowed; headers := ∅ |},
   sample_db).
Proof.
  destruct set_password_refuses as [Hanonymous Hmethod]. split.
  - apply Hanonymous.
  - by apply (Hmethod GET 1 alice).
Defined.

Lemma plain_hasher_recognises raw :
  check_password raw (make_password raw) = true.
Proof. by apply bool_decide_eq_true. Qed.

(** Alice changes her password to [n3w], and then from [n3w] on. *)
Lemma set_password_twice_example :
  ∃ u',
    users (dispatch UserViewSet set_password_route
             (as_alice POST {[ "current_password"%string := VStr "secret";
                               "new_password"%string := VStr "n3w" ]}) ∅
             sample_db).2 !! 1 = Some u' ∧
    status_code
      (dispatch UserViewSet set_password_route
         {| method := POST; user := AuthUser 1 u';
            data := json {[ "current_password"%string := VStr "n3w";
                            "new_password"%string := VStr "third" ]} |} ∅
         (dispatch UserViewSet set_password_route
            (as_alice POST {[ "current_password"%string := VStr "secret";
                              "new_password"%string := VStr "n3w" ]}) ∅
            sample_db).2).1 = 204.
Proof.
  by apply (set_password_then_new_is_current 1 alice _ _ ∅ sample_db
              "secret" "n3w" "third" plain_hasher_recognises).
Defined.

(** Alice follows Bob. *)
Lemma subscribe_example :
  ∃ l,
    SubscriptionAPIView_get_queryset
      {| request := as_alice GET ∅; kwargs := ∅; action := None |}
      (dispatch SubscribeAPIView create_destroy_route (as_alice POST ∅)
         {[ "user_id"%string := VInt 2 ]} sample_db).2
    = (inr l,
       (dispatch SubscribeAPIView create_destroy_route (as_alice POST ∅)
          {[ "user_id"%string := VInt 2 ]} sample_db).2) ∧
    (2, bob) ∈ l.
Proof.
  destruct (subscribe_then_listed 1 alice ∅ 2 bob ∅ sample_db ∅) as [_ Hlisted];
    [done|done|done| |exact Hlisted].
  intros _ rpk row Hrow. cbn [subscriptions sample_db] in Hrow.
  by rewrite lookup_empty in Hrow.
Defined.

(** Alice, who follows Bob, stops following him. *)
Lemma unsubscribe_example :
  ∃ l,
    SubscriptionAPIView_get_queryset
      {| request := as_alice GET ∅; kwargs := ∅; action := None |}
      (dispatch SubscribeAPIView create_destroy_route (as_alice DELETE ∅)
         {[ "user_id"%string := VInt 2 ]} crowded_db).2
    = (inr l,
       (dispatch SubscribeAPIView create_destroy_route (as_alice DELETE ∅)
          {[ "user_id"%string := VInt 2 ]} crowded_db).2) ∧
    (2, bob) ∉ l.
Proof.
  destruct (unsubscribe_then_not_listed 1 alice ∅ 2 ∅ crowded_db 1
              {| jr_user := 1; jr_target := 2 |}) as [_ (l & Hl & Hnot)];
    [done|done|done|done| |by exists l].
  intros rpk' row' Hrow' _ _. cbn [subscriptions crowded_db] in Hrow'.
  by apply lookup_singleton_Some in Hrow' as [-> _].
Defined.

(** Nobody can post a tag. *)
Lemma tag_post_example :
  ∃ e, (e = NotAuthenticated ∨ e = PermissionDenied ∨ e = MethodNotAllowed) ∧
       dispatch (TagViewSet []) list_route (as_alice POST ∅) ∅ sample_db =
       (handle_exception e, sample_db).
Proof.
  by apply (tag_and_ingredient_views_are_read_only [] list_route POST
              (AuthUser 1 alice) ∅ ∅ sample_db); [left|].
Defined.

Section strict_examples.
#[local] Existing Instance strict_serializers.

(** A favorite without the note the strict serializer wants, for a
    recipe that does not exist: the answer is 400, not 404. *)
Lemma favorite_rejected_example :
  dispatch FavoriteAPIView create_destroy_route (as_alice POST ∅)
    {[ "recipe_id"%string := VInt 7 ]} sample_db =
  ({| status_code := 400; content := Data {[ "note"%string := VStr "required" ]};
      headers := ∅ |}, sample_db).
Proof.
  by apply (join_create_rejected_payload Favorite 1 alice ∅
              {[ "recipe_id"%string := VInt 7 ]} sample_db).
Defined.

(** A recipe without a name. *)
Lemma recipe_rejected_example :
  dispatch RecipeViewSet list_route (as_alice POST ∅) ∅ sample_db =
  ({| status_code := 400; content := Data {[ "name"%string := VStr "required" ]};
      headers := ∅ |}, sample_db).
Proof.
  by apply (recipe_create_rejected_payload 1 alice ∅ ∅ sample_db).
Defined.

End strict_examples.
